(** * aginx: the [server] command (cmd/server.go)

    A shallow embedding of the Go file [cmd/server.go] of aginx and the
    properties of its start-up path: reading a setting from the
    environment or the flags ([getString]), choosing the storage engine
    from the cluster connection string ([clusterConfiguration]), probing
    the configuration tree for the exposed API server block
    ([selectDirective]), building that block ([apiServer]), registering
    it once ([exposeApi]) and assembling the daemon ([ServerCmd]).

    Go strings are byte strings: they are modelled by [string], whose
    characters are the 256 values of [ascii].  A Go result pair
    [(value, err)] stays a pair; a nil-able pointer or interface value
    is an [option]. *)

From Stdlib Require Import String Ascii List Bool Arith.
Import ListNotations.
Local Open Scope string_scope.
Local Open Scope list_scope.
Local Open Scope nat_scope.

Set Implicit Arguments.
Set Warnings "-register-all".

(** ** Bytes *)

Definition byte := ascii.
Bind Scope char_scope with byte.

Definition code (c : byte) : nat := nat_of_ascii c.

(** [lo <= c && c <= hi] on bytes. *)
Definition between (lo hi c : byte) : bool :=
  (code lo <=? code c) && (code c <=? code hi).

Definition byte_eqb (a b : byte) : bool := Ascii.eqb a b.

Arguments byte_eqb : simpl never.
Arguments between : simpl never.

(** [c == x1 || c == x2 || ...], the shape of Go's [case 'a', 'b':]. *)
Definition one_of (cs : string) (c : byte) : bool :=
  existsb (byte_eqb c) (list_ascii_of_string cs).

Arguments one_of : simpl never.

(** ** Package strings (Go standard library), the functions used here *)

Module strings.

Fixpoint HasPrefix (s prefix : string) : bool :=
  match prefix, s with
  | EmptyString, _ => true
  | String _ _, EmptyString => false
  | String a p, String b r => byte_eqb a b && HasPrefix r p
  end.

Fixpoint forallb_str (p : byte -> bool) (s : string) : bool :=
  match s with
  | EmptyString => true
  | String c r => p c && forallb_str p r
  end.

Fixpoint map_str (f : byte -> byte) (s : string) : string :=
  match s with
  | EmptyString => EmptyString
  | String c r => String (f c) (map_str f r)
  end.

(** [c < utf8.RuneSelf] *)
Definition isASCII (c : byte) : bool := code c <? 128.

Definition upper_byte (c : byte) : byte :=
  if between "a" "z" c then ascii_of_nat (code c - 32) else c.

Definition lower_byte (c : byte) : byte :=
  if between "A" "Z" c then ascii_of_nat (code c + 32) else c.

(** [strings.ToUpper]: a string of ASCII bytes is mapped byte by byte;
    any other string goes through [strings.Map(unicode.ToUpper, s)],
    whose Unicode tables are outside this development and are the
    parameter [mapUnicode]. *)
Definition ToUpper (mapUnicode : string -> string) (s : string) : string :=
  if forallb_str isASCII s then map_str upper_byte s else mapUnicode s.

(** [strings.Index(s, sep)], [None] for Go's -1. *)
Definition Index (s sep : string) : option nat := String.index 0 sep s.

Definition Contains (s sep : string) : bool :=
  match Index s sep with Some _ => true | None => false end.

(** [strings.Cut(s, sep)] *)
Definition Cut (s sep : string) : string * string * bool :=
  match Index s sep with
  | Some i =>
      (substring 0 i s,
       substring (i + String.length sep) (String.length s) s, true)
  | None => (s, "", false)
  end.

(** [strings.LastIndex(s, sep)] for a separator of one byte. *)
Fixpoint LastIndexByte_from (i : nat) (s : string) (c : byte) : option nat :=
  match s with
  | EmptyString => None
  | String x r =>
      match LastIndexByte_from (S i) r c with
      | Some j => Some j
      | None => if byte_eqb x c then Some i else None
      end
  end.

Definition LastIndexByte (s : string) (c : byte) : option nat :=
  LastIndexByte_from 0 s c.

(** [strings.Count(s, sep)] for a separator of one byte. *)
Fixpoint CountByte (s : string) (c : byte) : nat :=
  match s with
  | EmptyString => 0
  | String x r => (if byte_eqb x c then 1 else 0) + CountByte r c
  end.

Fixpoint last_byte (s : string) : option byte :=
  match s with
  | EmptyString => None
  | String c EmptyString => Some c
  | String _ r => last_byte r
  end.

(** [strings.HasSuffix(s, suffix)] for a suffix of one byte. *)
Definition HasSuffixByte (s : string) (c : byte) : bool :=
  match last_byte s with Some x => byte_eqb x c | None => false end.

End strings.

(** A Go slice expression [s[i:]]; [None] is the run-time panic
    "slice bounds out of range" raised when [i > len(s)]. *)
Definition slice_from (i : nat) (s : string) : option string :=
  if i <=? String.length s
  then Some (substring i (String.length s - i) s)
  else None.

(** [s[:i]] for an [i] known to be in range. *)
Definition slice_to (i : nat) (s : string) : string := substring 0 i s.

(** [s[i:]] for an [i] known to be in range. *)
Definition slice_after (i : nat) (s : string) : string :=
  substring i (String.length s - i) s.

(** ** Package net/url (Go standard library, go1.20)

    [clusterConfiguration] reads the connection string with [url.Parse]
    and then uses [Scheme], [Host], [EscapedPath()] and
    [Query().Get(..)].  The functions below follow the library's
    algorithm function by function. *)

Module url.

Inductive encoding : Set :=
| encodePath | encodePathSegment | encodeHost | encodeZone
| encodeUserPassword | encodeQueryComponent | encodeFragment.

Definition is_host_mode (mode : encoding) : bool :=
  match mode with encodeHost | encodeZone => true | _ => false end.

Definition is_query_mode (mode : encoding) : bool :=
  match mode with encodeQueryComponent => true | _ => false end.

(** The error values of the package. *)
Inductive Err : Set :=
| EscapeError (s : string)        (* invalid URL escape *)
| InvalidHostError (s : string)   (* invalid character in host name *)
| InvalidPort (colonPort : string)
| errorString (msg : string).

(** [*url.Error{Op, URL, Err}] *)
Record Error : Set := mkError { Op : string; ErrURL : string; Cause : Err }.

Definition ishex (c : byte) : bool :=
  between "0" "9" c || between "a" "f" c || between "A" "F" c.

Definition unhex (c : byte) : nat :=
  if between "0" "9" c then code c - code "0"
  else if between "a" "f" c then code c - code "a" + 10
  else if between "A" "F" c then code c - code "A" + 10
  else 0.

Definition alnum (c : byte) : bool :=
  between "a" "z" c || between "A" "Z" c || between "0" "9" c.

Definition shouldEscape (c : byte) (mode : encoding) : bool :=
  if alnum c then false
  else if is_host_mode mode && (one_of "!$&'()*+,;=:[]<>" c || (code c =? 34))
  then false
  else if one_of "-_.~" c then false
  else if one_of "$&+,/:;=?@" c then
    match mode with
    | encodePath => byte_eqb c "?"
    | encodePathSegment => one_of "/;,?" c
    | encodeUserPassword => one_of "@/?:" c
    | encodeQueryComponent => true
    | encodeFragment => false
    | _ => true
    end
  else
    match mode with
    | encodeFragment => negb (one_of "!()*" c)
    | _ => true
    end.

(** The first three bytes at most: [s = s[i:]; if len(s) > 3 { s = s[:3] }]. *)
Definition upto3 (s : string) : string := substring 0 3 s.

(** First loop of [unescape]: the escapes are well formed and, for a
    host, the bytes are allowed.  [None] when the loop finds nothing. *)
Fixpoint unescape_check (mode : encoding) (s : string) : option Err :=
  match s with
  | EmptyString => None
  | String c r =>
      if byte_eqb c "%" then
        match r with
        | String a (String b r') =>
            if negb (ishex a) || negb (ishex b) then Some (EscapeError (upto3 s))
            else
              let esc := String c (String a (String b EmptyString)) in
              let v := ascii_of_nat (unhex a * 16 + unhex b) in
              if match mode with encodeHost => true | _ => false end
                 && (unhex a <? 8) && negb (String.eqb esc "%25")
              then Some (EscapeError esc)
              else if match mode with encodeZone => true | _ => false end
                      && negb (String.eqb esc "%25") && negb (byte_eqb v " ")
                      && shouldEscape v encodeHost
              then Some (EscapeError esc)
              else unescape_check mode r'
        | _ => Some (EscapeError (upto3 s))
        end
      else if byte_eqb c "+" then unescape_check mode r
      else if is_host_mode mode && strings.isASCII c && shouldEscape c encodeHost
      then Some (InvalidHostError (String c EmptyString))
      else unescape_check mode r
  end.

(** Second loop of [unescape], on a string that passed the first. *)
Fixpoint unescape_decode (mode : encoding) (s : string) : string :=
  match s with
  | EmptyString => EmptyString
  | String c r =>
      if byte_eqb c "%" then
        match r with
        | String a (String b r') =>
            String (ascii_of_nat (unhex a * 16 + unhex b)) (unescape_decode mode r')
        | _ => s
        end
      else if byte_eqb c "+" then
        String (if is_query_mode mode then " "%char else "+"%char)
               (unescape_decode mode r)
      else String c (unescape_decode mode r)
  end.

Definition unescape (s : string) (mode : encoding) : string * option Err :=
  match unescape_check mode s with
  | Some e => ("", Some e)
  | None => (unescape_decode mode s, None)
  end.

Definition upperhex (n : nat) : byte :=
  match get n "0123456789ABCDEF" with Some c => c | None => "0"%char end.

Fixpoint escape (s : string) (mode : encoding) : string :=
  match s with
  | EmptyString => EmptyString
  | String c r =>
      if shouldEscape c mode then
        if byte_eqb c " " && is_query_mode mode
        then String "+" (escape r mode)
        else String "%" (String (upperhex (code c / 16))
               (String (upperhex (code c mod 16)) (escape r mode)))
      else String c (escape r mode)
  end.

Definition validEncoded (s : string) (mode : encoding) : bool :=
  strings.forallb_str
    (fun c => one_of "!$&'()*+,;=:@[]%" c || negb (shouldEscape c mode)) s.

Record Userinfo : Set :=
  mkUserinfo { username : string; password : string; passwordSet : bool }.

Record URL : Set := mkURL {
  Scheme : string;
  Opaque : string;
  User : option Userinfo;
  Host : string;
  Path : string;
  RawPath : string;
  OmitHost : bool;
  ForceQuery : bool;
  RawQuery : string;
  Fragment : string;
  RawFragment : string
}.

(** [new(URL)]: every field at its zero value. *)
Definition zero : URL := mkURL "" "" None "" "" "" false false "" "" "".

Definition letter (c : byte) : bool := between "a" "z" c || between "A" "Z" c.

(** The loop of [getScheme], at index [i] with [rest = rawURL[i:]]. *)
Fixpoint getScheme_loop (rawURL : string) (i : nat) (rest : string)
  : string * string * option Err :=
  match rest with
  | EmptyString => ("", rawURL, None)
  | String c r =>
      if letter c then getScheme_loop rawURL (S i) r
      else if between "0" "9" c || one_of "+-." c then
        if i =? 0 then ("", rawURL, None) else getScheme_loop rawURL (S i) r
      else if byte_eqb c ":" then
        if i =? 0 then ("", "", Some (errorString "missing protocol scheme"))
        else (slice_to i rawURL, slice_after (S i) rawURL, None)
      else ("", rawURL, None)
  end.

Definition getScheme (rawURL : string) : string * string * option Err :=
  getScheme_loop rawURL 0 rawURL.

Definition stringContainsCTLByte (s : string) : bool :=
  negb (strings.forallb_str
          (fun c => negb ((code c <? code " ") || (code c =? 127))) s).

Definition validOptionalPort (port : string) : bool :=
  match port with
  | EmptyString => true
  | String c r => byte_eqb c ":" && strings.forallb_str (between "0" "9") r
  end.

Definition validUserinfo (s : string) : bool :=
  strings.forallb_str
    (fun r => alnum r || one_of "-._:~!$&'()*+,;=%@" r) s.

Definition parseHost (host : string) : string * option Err :=
  let plain :=
    (* host, err = unescape(host, encodeHost) *)
    match unescape host encodeHost with
    | (_, Some e) => ("", Some e)
    | (h, None) => (h, None)
    end in
  if strings.HasPrefix host "[" then
    match strings.LastIndexByte host "]" with
    | None => ("", Some (errorString "missing ']' in host"))
    | Some i =>
        let colonPort := slice_after (S i) host in
        if negb (validOptionalPort colonPort) then ("", Some (InvalidPort colonPort))
        else
          match strings.Index (slice_to i host) "%25" with
          | Some zone =>
              match unescape (slice_to zone host) encodeHost with
              | (_, Some e) => ("", Some e)
              | (host1, None) =>
                  match unescape (substring zone (i - zone) host) encodeZone with
                  | (_, Some e) => ("", Some e)
                  | (host2, None) =>
                      match unescape (slice_after i host) encodeHost with
                      | (_, Some e) => ("", Some e)
                      | (host3, None) => ((host1 ++ host2 ++ host3)%string, None)
                      end
                  end
              end
          | None => plain
          end
    end
  else
    match strings.LastIndexByte host ":" with
    | Some i =>
        let colonPort := slice_after i host in
        if negb (validOptionalPort colonPort) then ("", Some (InvalidPort colonPort))
        else plain
    | None => plain
    end.

Definition parseAuthority (authority : string)
  : option Userinfo * string * option Err :=
  let i := strings.LastIndexByte authority "@" in
  let '(host, err) :=
    match i with
    | None => parseHost authority
    | Some i => parseHost (slice_after (S i) authority)
    end in
  match err with
  | Some e => (None, "", Some e)
  | None =>
      match i with
      | None => (None, host, None)
      | Some i =>
          let userinfo := slice_to i authority in
          if negb (validUserinfo userinfo)
          then (None, "", Some (errorString "net/url: invalid userinfo"))
          else if negb (strings.Contains userinfo ":") then
            match unescape userinfo encodeUserPassword with
            | (_, Some e) => (None, "", Some e)
            | (u, None) => (Some (mkUserinfo u "" false), host, None)
            end
          else
            let '(username, password, _) := strings.Cut userinfo ":" in
            match unescape username encodeUserPassword with
            | (_, Some e) => (None, "", Some e)
            | (username, None) =>
                match unescape password encodeUserPassword with
                | (_, Some e) => (None, "", Some e)
                | (password, None) =>
                    (Some (mkUserinfo username password true), host, None)
                end
            end
      end
  end.

Definition with_path (u : URL) (path rawPath : string) : URL :=
  mkURL (Scheme u) (Opaque u) (User u) (Host u) path rawPath
        (OmitHost u) (ForceQuery u) (RawQuery u) (Fragment u) (RawFragment u).

(** [u.setPath(p)] *)
Definition setPath (u : URL) (p : string) : URL * option Err :=
  match unescape p encodePath with
  | (_, Some e) => (u, Some e)
  | (path, None) =>
      if String.eqb p (escape path encodePath)
      then (with_path u path "", None)
      else (with_path u path p, None)
  end.

(** [u.setFragment(f)] *)
Definition setFragment (u : URL) (f : string) : URL * option Err :=
  match unescape f encodeFragment with
  | (_, Some e) => (u, Some e)
  | (frag, None) =>
      let raw := if String.eqb f (escape frag encodeFragment) then "" else f in
      (mkURL (Scheme u) (Opaque u) (User u) (Host u) (Path u) (RawPath u)
             (OmitHost u) (ForceQuery u) (RawQuery u) frag raw, None)
  end.

(** [parse(rawURL, viaRequest)]; the scheme returned by [getScheme] is
    made of ASCII letters, digits and [+-.], so [strings.ToLower] maps
    it byte by byte. *)
Definition parse (rawURL : string) (viaRequest : bool) : option URL * option Err :=
  if stringContainsCTLByte rawURL
  then (None, Some (errorString "net/url: invalid control character in URL"))
  else if String.eqb rawURL "" && viaRequest
  then (None, Some (errorString "empty url"))
  else if String.eqb rawURL "*"
  then (Some (with_path zero "*" ""), None)
  else
    match getScheme rawURL with
    | (_, _, Some e) => (None, Some e)
    | (scheme, rest, None) =>
        let scheme := strings.map_str strings.lower_byte scheme in
        let '(rest, rawQuery, forceQuery) :=
          if strings.HasSuffixByte rest "?" && (strings.CountByte rest "?" =? 1)
          then (slice_to (String.length rest - 1) rest, "", true)
          else let '(r, q, _) := strings.Cut rest "?" in (r, q, false) in
        let url := mkURL scheme "" None "" "" "" false forceQuery rawQuery "" "" in
        if negb (strings.HasPrefix rest "/") && negb (String.eqb scheme "")
        then (* a rootless path is opaque *)
          (Some (mkURL scheme rest None "" "" "" false forceQuery rawQuery "" ""), None)
        else if negb (strings.HasPrefix rest "/") && viaRequest
        then (None, Some (errorString "invalid URI for request"))
        else if negb (strings.HasPrefix rest "/")
                && (let '(segment, _, _) := strings.Cut rest "/" in
                    strings.Contains segment ":")
        then (None, Some (errorString "first path segment in URL cannot contain colon"))
        else if (negb (String.eqb scheme "")
                 || (negb viaRequest && negb (strings.HasPrefix rest "///")))
                && strings.HasPrefix rest "//"
        then
          let authority := slice_after 2 rest in
          let '(authority, rest) :=
            match strings.Index authority "/" with
            | Some i => (slice_to i authority, slice_after i authority)
            | None => (authority, "")
            end in
          match parseAuthority authority with
          | (_, _, Some e) => (None, Some e)
          | (user, host, None) =>
              match setPath (mkURL scheme "" user host "" "" false forceQuery
                                   rawQuery "" "") rest with
              | (_, Some e) => (None, Some e)
              | (u, None) => (Some u, None)
              end
          end
        else
          let omitHost := negb (String.eqb scheme "") && strings.HasPrefix rest "/" in
          match setPath (mkURL scheme "" None "" "" "" omitHost forceQuery
                               rawQuery "" "") rest with
          | (_, Some e) => (None, Some e)
          | (u, None) => (Some u, None)
          end
    end.

(** [url.Parse(rawURL)] *)
Definition Parse (rawURL : string) : option URL * option Error :=
  let '(u, frag, _) := strings.Cut rawURL "#" in
  match parse u false with
  | (_, Some e) => (None, Some (mkError "parse" u e))
  | (None, None) => (None, None)
  | (Some url, None) =>
      if String.eqb frag "" then (Some url, None)
      else
        match setFragment url frag with
        | (_, Some e) => (None, Some (mkError "parse" rawURL e))
        | (url, None) => (Some url, None)
        end
  end.

(** [u.EscapedPath()] *)
Definition EscapedPath (u : URL) : string :=
  if negb (String.eqb (RawPath u) "") && validEncoded (RawPath u) encodePath
     && match unescape (RawPath u) encodePath with
        | (p, None) => String.eqb p (Path u)
        | (_, Some _) => false
        end
  then RawPath u
  else if String.eqb (Path u) "*" then "*"
  else escape (Path u) encodePath.

(** [Values], a [map[string][]string]: the pairs in the order in which
    [ParseQuery] appends them; the values of a key are the second
    components of its pairs, in that order. *)
Definition Values : Set := list (string * string).

(** The pieces that the loop of [parseQuery] cuts at each [&]. *)
Fixpoint split_amp (acc : string) (s : string) : list string :=
  match s with
  | EmptyString => [acc]
  | String c r =>
      if byte_eqb c "&" then acc :: split_amp "" r
      else split_amp (acc ++ String c EmptyString)%string r
  end.

(** One turn of the loop of [parseQuery] on the piece [key]. *)
Definition parseQuery_piece (m : Values) (key : string) : Values :=
  if strings.Contains key ";" then m
  else if String.eqb key "" then m
  else
    let '(key, value, _) := strings.Cut key "=" in
    match unescape key encodeQueryComponent with
    | (_, Some _) => m
    | (key, None) =>
        match unescape value encodeQueryComponent with
        | (_, Some _) => m
        | (value, None) => m ++ [(key, value)]
        end
    end.

(** [u.Query()]: [ParseQuery(u.RawQuery)] with its error dropped. *)
Definition Query (u : URL) : Values :=
  fold_left parseQuery_piece (split_amp "" (RawQuery u)) [].

(** [v.Get(key)]: the first value of [key], or the empty string. *)
Fixpoint Get (v : Values) (key : string) : string :=
  match v with
  | [] => ""
  | (k, x) :: r => if String.eqb k key then x else Get r key
  end.

End url.

(** ** Package fmt: the one verb used in this file *)

Module fmt.

(** [fmt.Sprintf(format, arg)] for a format whose only verb is one [%s]. *)
Definition Sprintf (format arg : string) : string :=
  match strings.Index format "%s" with
  | Some i => (slice_to i format ++ arg ++ slice_after (i + 2) format)%string
  | None => format
  end.

End fmt.

(** ** Errors and panics *)

(** A non-nil Go [error] value; [option error] is the interface with its
    nil. *)
Inductive error : Type :=
| url_Error (e : url.Error)
| errors_New (msg : string).

(** What a goroutine panics with: an error handed to [panic], or a
    run-time error of the language. *)
Inductive panic : Type :=
| PanicError (e : error)
| RuntimeError (msg : string).

Inductive outcome (A : Type) : Type :=
| Return (a : A)
| Panicked (p : panic).

Arguments Return {A} a.
Arguments Panicked {A} p.

Definition nil_dereference : panic :=
  RuntimeError "invalid memory address or nil pointer dereference".

Definition slice_out_of_range : panic :=
  RuntimeError "slice bounds out of range".

Definition index_out_of_range : panic :=
  RuntimeError "index out of range".

(** ** Package configuration: the directive tree *)

(** Modelled from the spec: package nginx/configuration is not part of
    the sources at hand.  A Directive is a node of the configuration
    tree with a name, its ordered arguments and its ordered body. *)
Inductive Directive : Type :=
| mkDirective (Name : string) (Args : list string) (Body : list Directive).

Definition Name (d : Directive) : string := let 'mkDirective n _ _ := d in n.
Definition Args (d : Directive) : list string := let 'mkDirective _ a _ := d in a.
Definition Body (d : Directive) : list Directive := let 'mkDirective _ _ b := d in b.

(** While [apiServer] builds its tree it holds two pointers into it,
    [directive] and [location], and writes through both.  The nodes
    under construction live in a store; a pointer is an index into it. *)
Record Node : Type := mkNode {
  node_name : string;
  node_args : list string;
  node_body : list nat
}.

Definition Heap : Type := list Node.

(** A construction step: [None] is a nil-pointer dereference. *)
Definition Build (A : Type) : Type := Heap -> option (A * Heap).

Definition build_ret {A} (a : A) : Build A := fun h => Some (a, h).

Definition build_bind {A B} (m : Build A) (k : A -> Build B) : Build B :=
  fun h => match m h with Some (a, h') => k a h' | None => None end.

Fixpoint set_nth {A} (i : nat) (x : A) (l : list A) : list A :=
  match l, i with
  | [], _ => []
  | _ :: r, 0 => x :: r
  | y :: r, S j => y :: set_nth j x r
  end.

(** Modelled from the spec: [configuration.NewDirective(name, args...)]
    allocates a node with an empty body. *)
Definition NewDirective (name : string) (args : list string) : Build nat :=
  fun h => Some (List.length h, h ++ [mkNode name args []]).

(** Modelled from the spec: [d.AddBody(name, args...)] appends a new
    child under the node [d] and returns the child. *)
Definition AddBody (d : nat) (name : string) (args : list string) : Build nat :=
  build_bind (NewDirective name args) (fun body h =>
    match nth_error h d with
    | Some n =>
        Some (body,
              set_nth d (mkNode (node_name n) (node_args n) (node_body n ++ [body])) h)
    | None => None
    end).

Fixpoint sequence_option {A} (l : list (option A)) : option (list A) :=
  match l with
  | [] => Some []
  | Some a :: r => option_map (cons a) (sequence_option r)
  | None :: _ => None
  end.

(** The tree below the pointer [p]; the fuel bounds its depth. *)
Fixpoint reify (fuel : nat) (h : Heap) (p : nat) : option Directive :=
  match fuel with
  | 0 => None
  | S fuel' =>
      match nth_error h p with
      | None => None
      | Some n =>
          option_map (mkDirective (node_name n) (node_args n))
                     (sequence_option (map (reify fuel' h) (node_body n)))
      end
  end.

(** Runs a construction on an empty store and reads the tree it
    returns a pointer to; [None] is the nil pointer. *)
Definition built (b : Build nat) : option Directive :=
  match b [] with
  | Some (p, h) => reify (List.length h) h p
  | None => None
  end.

(** ** Package pflag / cobra: the flags of a command *)

Record Flag : Type := mkFlag {
  flag_name : string;
  flag_shorthand : string;
  flag_value : string;
  flag_usage : string
}.

(** A [*cobra.Command], reduced to what this file touches. *)
Record Command : Type := mkCommand {
  Use : string;
  Long : string;
  PersistentFlags : list Flag
}.

(** [flags.StringP(name, shorthand, value, usage)] *)
Definition StringP (cmd : Command) (name shorthand value usage : string) : Command :=
  mkCommand (Use cmd) (Long cmd)
            (PersistentFlags cmd ++ [mkFlag name shorthand value usage]).

(** [flags.GetString(name)]: every flag of this file is a string flag,
    so the only failure is a name that was never defined. *)
Fixpoint GetString (flags : list Flag) (name : string) : string * option error :=
  match flags with
  | [] => ("", Some (errors_New ("flag accessed but not defined: " ++ name)%string))
  | f :: r => if String.eqb (flag_name f) name then (flag_value f, None)
              else GetString r name
  end.

(** ** The command and its collaborators *)

(** [new(server.Supervister)] *)
Inductive Supervister : Type := newSupervister.

(** Modelled from the spec: a Service is a long-running component with
    a start/stop lifecycle; these are the four kinds of value that this
    file hands to the Daemon. *)
Inductive Service (Engine Http Manager : Type) : Type :=
| EngineService (e : Engine)
| HttpService (h : Http)
| SupervisterService (s : Supervister)
| ManagerService (m : Manager).

Arguments EngineService {Engine Http Manager} e.
Arguments HttpService {Engine Http Manager} h.
Arguments SupervisterService {Engine Http Manager} s.
Arguments ManagerService {Engine Http Manager} m.

(** Modelled from the spec: the Daemon owns its set of Services,
    registered at construction and started together. *)
Record Daemon (Engine Http Manager : Type) : Type :=
  mkDaemon { services : list (Service Engine Http Manager) }.

Arguments mkDaemon {Engine Http Manager} services.
Arguments services {Engine Http Manager} d.

(** What this file calls and does not define: the process environment
    and the packages storage, nginx/client, lego, server and util of
    the repository.  A call may act on the world; a Go result
    [(value, err)] stays a pair. *)
Class Collaborators : Type := {
  (** the world outside: environment, backends, stored configuration *)
  World : Type;
  (** a non-nil [storage.Engine] *)
  Engine : Type;
  (** a [*client.Client] *)
  Client : Type;
  (** a non-nil [*configuration.Directive] of a client's tree *)
  DirRef : Type;
  (** what [api.Configuration()] returns *)
  Configuration : Type;
  (** a [*lego.Manager] *)
  Manager : Type;
  Routers : Type;
  Http : Type;
  (** [strings.Map(unicode.ToUpper, s)], see [strings.ToUpper] *)
  mapUnicodeToUpper : string -> string;
  (** [os.Getenv(key)] reads the environment *)
  os_Getenv : World -> string -> string;
  fileStorage_System : World -> (option Engine * option error) * World;
  consul_New :
    string -> string -> string -> World -> (option Engine * option error) * World;
  client_NewClient : option Engine -> World -> (Client * option error) * World;
  client_Select :
    Client -> list string -> World -> (list (option DirRef) * option error) * World;
  client_Add :
    Client -> list string -> option Directive -> World -> option error * World;
  client_Configuration : Client -> World -> Configuration * World;
  engine_StoreConfiguration :
    Engine -> Configuration -> World -> option error * World;
  lego_NewManager : option Engine -> World -> (Manager * option error) * World;
  (** [engine.(Service)]: whether the dynamic type of the engine has
      the methods of Service *)
  implementsService : Engine -> bool;
  server_Routers :
    Supervister -> option Engine -> Manager -> string -> World -> Routers * World;
  server_NewHttp : string -> Routers -> World -> Http * World;
  daemon_Start : Daemon Engine Http Manager -> World -> option error * World
}.

Section Server.

Context {C : Collaborators}.

Definition NewDaemon : Daemon Engine Http Manager := mkDaemon [].

(** [daemon.Add(services...)] returns the daemon, for chaining. *)
Definition Daemon_Add (d : Daemon Engine Http Manager)
  (svcs : list (Service Engine Http Manager)) : Daemon Engine Http Manager :=
  mkDaemon (services d ++ svcs).

(** The calls that leave this file, as they are observed. *)
Inductive Event : Type :=
| EvSystem
| EvConsulNew (address folder token : string)
| EvNewClient (engine : option Engine)
| EvSelect (api : Client) (queries : list string)
| EvAdd (api : Client) (queries : list string) (d : option Directive)
| EvConfiguration (api : Client)
| EvStoreConfiguration (engine : Engine) (cfg : Configuration)
| EvNewManager (engine : option Engine)
| EvRouters (auth : string)
| EvNewHttp (address : string)
| EvStart (d : Daemon Engine Http Manager)
| EvPrintln (p : panic).

Record State : Type := mkState { world : World; trace : list Event }.

(** A computation of this file: it returns or panics, and leaves a state. *)
Definition M (A : Type) : Type := State -> outcome A * State.

Definition ret {A} (a : A) : M A := fun s => (Return a, s).

Definition bind {A B} (m : M A) (k : A -> M B) : M B :=
  fun s =>
    match m s with
    | (Return a, s') => k a s'
    | (Panicked p, s') => (Panicked p, s')
    end.

Definition throw {A} (p : panic) : M A := fun s => (Panicked p, s).

(** A call into another package: the event is recorded, the world moves. *)
Definition call {A} (ev : Event) (f : World -> A * World) : M A :=
  fun s =>
    let '(a, w) := f (world s) in
    (Return a, mkState w (trace s ++ [ev])).

Definition Getenv (key : string) : M string :=
  fun s => (Return (os_Getenv (world s) key), s).

(** Modelled from the spec: [util.PanicIfError(err)] makes a failure at
    start-up fatal. *)
Definition PanicIfError (err : option error) : M unit :=
  match err with
  | Some e => throw (PanicError e)
  | None => ret tt
  end.

(** Modelled from the spec: [defer util.Catch(handler)] recovers a
    panic of the function body and hands it to the handler; the
    function then returns the zero value of its result. *)
Definition Catch {A} (body : M A) (handler : panic -> M unit) (zero : A) : M A :=
  fun s =>
    match body s with
    | (Return a, s') => (Return a, s')
    | (Panicked p, s') =>
        match handler p s' with
        | (Return _, s'') => (Return zero, s'')
        | (Panicked q, s'') => (Panicked q, s'')
        end
    end.

(** Modelled from the spec: [client.Queries(q...)] is the list of its
    arguments, the query handed to Select and Add. *)
Definition Queries (q : list string) : list string := q.

Local Notation "x <- m ;; k" := (bind m (fun x => k))
  (at level 61, m at next level, right associativity).
Local Notation "' p <- m ;; k" := (bind m (fun x => let p := x in k))
  (at level 61, p pattern, m at next level, right associativity).

(** [*p] for a pointer that may be nil. *)
Definition deref {A} (p : option A) : M A :=
  match p with
  | Some a => ret a
  | None => throw nil_dereference
  end.

(** [s[1:]] *)
Definition slice1 (s : string) : M string :=
  match slice_from 1 s with
  | Some r => ret r
  | None => throw slice_out_of_range
  end.

(** [l[0]] *)
Definition index0 {A} (l : list A) : M A :=
  match l with
  | x :: _ => ret x
  | [] => throw index_out_of_range
  end.

(** *** getString (server.go, lines 19-27) *)

Definition envKey (key : string) : string :=
  strings.ToUpper mapUnicodeToUpper (fmt.Sprintf "aginx_%s" key).

Definition getString (cmd : Command) (key : string) : M string :=
  let envKey := envKey key in
  value <- Getenv envKey ;;
  if negb (String.eqb value "") then ret value
  else
    let '(value, err) := GetString (PersistentFlags cmd) key in
    _ <- PanicIfError err ;;
    ret value.

(** *** clusterConfiguration (lines 29-47)

    The result [engine] is a named result: it is nil until a branch
    assigns it, and the [switch] has a single case. *)

Definition clusterConfiguration (cluster : string) : M (option Engine) :=
  if String.eqb cluster "" then
    '(engine, err) <- call EvSystem fileStorage_System ;;
    _ <- PanicIfError err ;;
    ret engine
  else
    let '(config, err) := url.Parse cluster in
    _ <- PanicIfError (option_map url_Error err) ;;
    config <- deref config ;;
    if String.eqb (url.Scheme config) "consul" then
      let token := url.Get (url.Query config) "token" in
      folder <- slice1 (url.EscapedPath config) ;;
      '(engine, err) <- call (EvConsulNew (url.Host config) folder token)
                             (consul_New (url.Host config) folder token) ;;
      _ <- PanicIfError err ;;
      ret engine
    else
      ret None.

(** *** selectDirective (lines 49-62) *)

Definition serverQuery (domain : string) : string :=
  fmt.Sprintf "server.[server_name('%s') & listen('80')]" domain.

Definition Select (api : Client) (queries : list string)
  : M (list (option DirRef) * option error) :=
  call (EvSelect api queries) (client_Select api queries).

Definition selectDirective (api : Client) (domain : string)
  : M (list string * option DirRef) :=
  let serverQuery := serverQuery domain in
  let queries := Queries ["http"; "include"; "*"; serverQuery] in
  '(directives, err) <- Select api queries ;;
  match err with
  | None =>
      directive <- index0 directives ;;
      ret (queries, directive)
  | Some _ =>
      let queries := Queries ["http"; serverQuery] in
      '(directives, err) <- Select api queries ;;
      match err with
      | None =>
          directive <- index0 directives ;;
          ret (queries, directive)
      | Some _ => ret (queries, None)
      end
  end.

(** *** apiServer (lines 64-85) *)

Local Notation "x <~ m ;; k" := (build_bind m (fun x => k))
  (at level 61, m at next level, right associativity).

Definition apiServer_build (domain address : string) : Build nat :=
  directive <~ NewDirective "server" [] ;;
  _ <~ AddBody directive "listen" ["80"] ;;
  _ <~ AddBody directive "server_name" [domain] ;;
  let address :=
    if strings.HasPrefix address ":" then ("127.0.0.1" ++ address)%string
    else address in
  location <~ AddBody directive "location" ["/"] ;;
  _ <~ AddBody location "proxy_redirect" ["default"] ;;
  _ <~ AddBody location "proxy_pass" [fmt.Sprintf "http://%s" address] ;;
  _ <~ AddBody location "proxy_set_header" ["Host"; "$host"] ;;
  _ <~ AddBody location "proxy_set_header" ["X-Real-IP"; "$remote_addr"] ;;
  _ <~ AddBody location "proxy_set_header"
                ["X-Forwarded-For"; "$proxy_add_x_forwarded_for"] ;;
  _ <~ AddBody location "client_max_body_size" ["10m"] ;;
  _ <~ AddBody location "client_body_buffer_size" ["128k"] ;;
  _ <~ AddBody location "proxy_connect_timeout" ["90"] ;;
  _ <~ AddBody location "proxy_send_timeout" ["90"] ;;
  _ <~ AddBody location "proxy_read_timeout" ["90"] ;;
  _ <~ AddBody location "proxy_buffers" ["32"; "4k"] ;;
  build_ret directive.

(** The [*configuration.Directive] that [apiServer] returns: the root
    of a tree that nothing else points into. *)
Definition apiServer (domain address : string) : option Directive :=
  built (apiServer_build domain address).

(** *** exposeApi (lines 87-106) *)

Definition exposeApi (cmd : Command) (engine : option Engine) : M unit :=
  address <- getString cmd "api" ;;
  domain <- getString cmd "expose" ;;
  if String.eqb domain "" then ret tt
  else
    '(api, err) <- call (EvNewClient engine) (client_NewClient engine) ;;
    _ <- PanicIfError err ;;
    '(_, directive) <- selectDirective api domain ;;
    match directive with
    | Some _ => ret tt
    | None =>
        let apiServer := apiServer domain address in
        err <- call (EvAdd api (Queries ["http"]) apiServer)
                    (client_Add api (Queries ["http"]) apiServer) ;;
        _ <- PanicIfError err ;;
        cfg <- call (EvConfiguration api) (client_Configuration api) ;;
        engine <- deref engine ;;
        err <- call (EvStoreConfiguration engine cfg)
                    (engine_StoreConfiguration engine cfg) ;;
        PanicIfError err
    end.

(** *** ServerCmd.RunE (lines 108-136) *)

(** [service, matched := engine.(Service)]: a nil interface matches no
    type. *)
Definition assertService (engine : option Engine)
  : option (Service Engine Http Manager) :=
  match engine with
  | Some e => if implementsService e then Some (EngineService e) else None
  | None => None
  end.

(** Lines 118-123: the daemon once the engine has been looked at. *)
Definition registerEngine (daemon : Daemon Engine Http Manager)
  (engine : option Engine) : Daemon Engine Http Manager :=
  match assertService engine with
  | Some service => Daemon_Add daemon [service]
  | None => daemon
  end.

Definition RunE (cmd : Command) (args : list string) : M (option error) :=
  Catch
    (address <- getString cmd "api" ;;
     auth <- getString cmd "security" ;;
     let daemon := NewDaemon in
     cluster <- getString cmd "cluster" ;;
     engine <- clusterConfiguration cluster ;;
     let daemon := registerEngine daemon engine in
     _ <- exposeApi cmd engine ;;
     '(manager, err) <- call (EvNewManager engine) (lego_NewManager engine) ;;
     _ <- PanicIfError err ;;
     let svr := newSupervister in
     routers <- call (EvRouters auth) (server_Routers svr engine manager auth) ;;
     http <- call (EvNewHttp address) (server_NewHttp address routers) ;;
     let daemon :=
       Daemon_Add daemon
         [HttpService http; SupervisterService svr; ManagerService manager] in
     call (EvStart daemon) (daemon_Start daemon))
    (fun err => call (EvPrintln err) (fun w => (tt, w)))
    None.

End Server.

(** *** The flags (lines 138-156) *)

Definition AddClusterFlag (cmd : Command) : Command :=
  let cmd := StringP cmd "cluster" "c" "" "cluster config
for example. 
	consul://127.0.0.1:8500/aginx?token=authtoken   config from consul.  
	zk://127.0.0.1:2182/aginx                       config from zookeeper.
	etcd://127.0.0.1:1234/aginx                     config from etcd.
" in
  StringP cmd "expose" "e" "" "expose api use domain".

Definition AddServerFlags (cmd : Command) : Command :=
  let cmd := StringP cmd "api" "a" ":8011" "restful api port" in
  let cmd := StringP cmd "security" "s" ""
                     "base auth for restful api, example: user:passwd" in
  AddClusterFlag cmd.

(** [ServerCmd] after [init()]. *)
Definition ServerCmd : Command :=
  AddServerFlags (mkCommand "server" "the api server" []).

(** ** The vocabulary of the properties *)

(** The statement directive [name arg1 arg2 ...;]. *)
Definition statement (name : string) (args : list string) : Directive :=
  mkDirective name args [].

(** The skeleton as the specification words it: a server block for the
    domain on port 80 whose location proxies to the given address,
    forwards three headers and fixes sizes, timeouts and buffers. *)
Definition specified_skeleton (domain address : string) : Directive :=
  mkDirective "server" []
    [statement "listen" ["80"];
     statement "server_name" [domain];
     mkDirective "location" ["/"]
       [statement "proxy_pass" [("http://" ++ address)%string];
        statement "proxy_set_header" ["Host"; "$host"];
        statement "proxy_set_header" ["X-Real-IP"; "$remote_addr"];
        statement "proxy_set_header"
                  ["X-Forwarded-For"; "$proxy_add_x_forwarded_for"];
        statement "client_max_body_size" ["10m"];
        statement "client_body_buffer_size" ["128k"];
        statement "proxy_connect_timeout" ["90"];
        statement "proxy_send_timeout" ["90"];
        statement "proxy_read_timeout" ["90"];
        statement "proxy_buffers" ["32"; "4k"]]].

(** The address that the location proxies to: an address that starts
    with a colon, a bare port, is taken on the loopback interface. *)
Definition backend (address : string) : string :=
  if strings.HasPrefix address ":" then ("127.0.0.1" ++ address)%string
  else address.

(** The skeleton as the code builds it. *)
Definition built_skeleton (domain address : string) : Directive :=
  mkDirective "server" []
    [statement "listen" ["80"];
     statement "server_name" [domain];
     mkDirective "location" ["/"]
       [statement "proxy_redirect" ["default"];
        statement "proxy_pass" [("http://" ++ backend address)%string];
        statement "proxy_set_header" ["Host"; "$host"];
        statement "proxy_set_header" ["X-Real-IP"; "$remote_addr"];
        statement "proxy_set_header"
                  ["X-Forwarded-For"; "$proxy_add_x_forwarded_for"];
        statement "client_max_body_size" ["10m"];
        statement "client_body_buffer_size" ["128k"];
        statement "proxy_connect_timeout" ["90"];
        statement "proxy_send_timeout" ["90"];
        statement "proxy_read_timeout" ["90"];
        statement "proxy_buffers" ["32"; "4k"]]].

(** A path is rooted when it is empty or starts with a slash. *)
Definition rooted (s : string) : Prop := s = "" \/ exists r, s = String "/" r.

(** The connection string has an empty scheme. *)
Definition empty_scheme (cluster : string) : Prop :=
  exists config, url.Parse cluster = (Some config, None) /\ url.Scheme config = "".

(** The query that probes inside an include:
    [http.include.*.server[server_name(domain) & listen('80')]]. *)
Definition include_query (domain : string) : list string :=
  ["http"; "include"; "*";
   ("server.[server_name('" ++ domain ++ "') & listen('80')]")%string].

(** The query for the directly present shape:
    [http.server[server_name(domain) & listen('80')]]. *)
Definition direct_query (domain : string) : list string :=
  ["http"; ("server.[server_name('" ++ domain ++ "') & listen('80')]")%string].




Section Vocabulary.

Context {C : Collaborators}.

(** What the flag alone gives: its value, or the panic of
    [PanicIfError] when the flag is not defined. *)
Definition flag_outcome (cmd : Command) (key : string) : outcome string :=
  match GetString (PersistentFlags cmd) key with
  | (_, Some e) => Panicked (PanicError e)
  | (value, None) => Return value
  end.

(** What a constructor of a backend leaves when it is called in the
    state [s] and answers [r]: the engine, or the panic of
    [PanicIfError], with the call recorded. *)
Definition constructed (r : (option Engine * option error) * World)
  (ev : Event) (s : State) : outcome (option Engine) * State :=
  let '((engine, err), w) := r in
  (match err with
   | Some e => Panicked (PanicError e)
   | None => Return engine
   end,
   mkState w (trace s ++ [ev])).

(** The local file backend: the call [fileStorage.System()]. *)
Definition file_backend (s : State) : outcome (option Engine) * State :=
  constructed (fileStorage_System (world s)) EvSystem s.

(** The consul backend for an address, a folder and a token: the call
    [consul.New(address, folder, token)]. *)
Definition consul_backend (address folder token : string) (s : State)
  : outcome (option Engine) * State :=
  constructed (consul_New address folder token (world s))
              (EvConsulNew address folder token) s.

(** The state after a call that is observed as [ev] and leaves the
    world [w]. *)
Definition after (ev : Event) (w : World) (s : State) : State :=
  mkState w (trace s ++ [ev]).

(** The guarantee of the specification on Select: an answer without
    error holds at least one match. *)
Definition Select_guarantee : Prop :=
  forall api queries w ds w',
    client_Select api queries w = ((ds, None), w') -> ds <> [].

(** The calls that change the configuration: Add on the client's tree
    and StoreConfiguration on the engine. *)
Definition mutation (ev : Event) : bool :=
  match ev with
  | EvAdd _ _ _ | EvStoreConfiguration _ _ => true
  | _ => false
  end.

(** No Add and no StoreConfiguration among the events. *)
Definition quiet (evs : list Event) : Prop :=
  forallb (fun ev => negb (mutation ev)) evs = true.



(** The mutating end of [exposeApi]: the block is built, added under
    [http], and the configuration is stored. *)
Definition register (api : Client) (domain address : string)
  (engine : option Engine) : M unit :=
  let apiServer := apiServer domain address in
  bind (call (EvAdd api (Queries ["http"]) apiServer)
             (client_Add api (Queries ["http"]) apiServer)) (fun err =>
  bind (PanicIfError err) (fun _ =>
  bind (call (EvConfiguration api) (client_Configuration api)) (fun cfg =>
  bind (deref engine) (fun engine =>
  bind (call (EvStoreConfiguration engine cfg)
             (engine_StoreConfiguration engine cfg)) (fun err =>
  PanicIfError err))))).


(** The calls that only read: opening a client and selecting. *)
Definition reading (ev : Event) : bool :=
  match ev with
  | EvNewClient _ | EvSelect _ _ => true
  | _ => false
  end.

(** The calls that prepare the start: every call but the start of the
    daemon and the print of a recovered panic. *)
Definition preparation (ev : Event) : bool :=
  match ev with
  | EvStart _ | EvPrintln _ => false
  | _ => true
  end.


(** What [RunE] leaves when its body panicked with [p] in the state
    [s]: the panic is printed and the result is a nil error. *)
Definition printed (p : panic) (s : State) : outcome (option error) * State :=
  (Return None, after (EvPrintln p) (world s) s).

(** The end of [RunE], lines 130-134, once the manager is there: the
    routers and the listener are built and the daemon is started. *)
Definition started (address auth : string) (engine : option Engine)
  (manager : Manager) (s : State) : outcome (option error) * State :=
  let rw := server_Routers newSupervister engine manager auth (world s) in
  let hw := server_NewHttp address (fst rw) (snd rw) in
  let d := Daemon_Add (registerEngine NewDaemon engine)
             [HttpService (fst hw); SupervisterService newSupervister;
              ManagerService manager] in
  let ew := daemon_Start d (snd hw) in
  (Return (fst ew),
   mkState (snd ew)
           (trace s ++ [EvRouters auth; EvNewHttp address; EvStart d])).

End Vocabulary.

(** ** A simulated deployment

    One concrete world on which the command runs: an environment, one
    stored configuration tree and the trees of the clients opened on
    it.  It serves to run the command on explicit inputs. *)

Module Sim.

(** Modelled from the spec: each concrete backend is a tagged variant
    selected by the scheme; the local file backend does not implement
    Service, a clustered key-value backend does. *)
Inductive SimEngine : Type :=
| FileEngine
| ConsulEngine (address folder token : string).

Definition simImplementsService (e : SimEngine) : bool :=
  match e with
  | FileEngine => false
  | ConsulEngine _ _ _ => true
  end.

Record SimWorld : Type := mkWorld {
  environ : list (string * string);  (* the process environment *)
  persisted : Directive;             (* the stored tree, under its root *)
  docs : list Directive              (* the tree of each client *)
}.

Fixpoint lookup_env (env : list (string * string)) (key : string) : string :=
  match env with
  | [] => ""
  | (k, v) :: r => if String.eqb k key then v else lookup_env r key
  end.

(** A node of a tree, by the positions to follow from the root. *)
Definition Path : Type := list nat.

Fixpoint subtree (d : Directive) (p : Path) : option Directive :=
  match p with
  | [] => Some d
  | i :: r =>
      match nth_error (Body d) i with
      | Some c => subtree c r
      | None => None
      end
  end.

Definition has_child (d : Directive) (name : string) (args : list string) : bool :=
  existsb (fun c => String.eqb (Name c) name
                    && if list_eq_dec string_dec (Args c) args then true else false)
          (Body d).

Definition child_args (d : Directive) (name : string) : list (list string) :=
  map Args (filter (fun c => String.eqb (Name c) name) (Body d)).

(** Modelled from the spec: one step of a query against a candidate,
    for the steps that this file issues: a name, the wildcard, or
    [name.[server_name('n') & listen('80')]], true when the candidate
    has a child call [server_name n] and a child call [listen 80]. *)
Definition step_matches (step : string) (d : Directive) : bool :=
  String.eqb step "*"
  || String.eqb step (Name d)
  || (has_child d "listen" ["80"]
      && existsb (fun a =>
                    match a with
                    | [n] => String.eqb step
                               (Name d ++ ".[server_name('" ++ n
                                       ++ "') & listen('80')]")%string
                    | _ => false
                    end)
                 (child_args d "server_name")).

(** The children of the candidate at [p] that match the step, in
    document order. *)
Definition step_children (root : Directive) (step : string) (p : Path) : list Path :=
  match subtree root p with
  | Some d =>
      map (fun i => p ++ [i])
          (filter (fun i => match nth_error (Body d) i with
                            | Some c => step_matches step c
                            | None => false
                            end)
                  (seq 0 (List.length (Body d))))
  | None => []
  end.

(** Modelled from the spec: evaluation is a filter over the levels of
    the tree, each step keeping the matching children of the current
    candidates. *)
Definition evaluate (root : Directive) (queries : list string) : list Path :=
  fold_left (fun cands step => flat_map (step_children root step) cands)
            queries [[]].

Definition NotFound : error := errors_New "not found".

(** Modelled from the spec: Select returns the matches in document
    order, or NotFound when there is none. *)
Definition simSelect (api : nat) (queries : list string) (w : SimWorld)
  : (list (option Path) * option error) * SimWorld :=
  match nth_error (docs w) api with
  | Some root =>
      match evaluate root queries with
      | [] => (([], Some NotFound), w)
      | ps => ((map Some ps, None), w)
      end
  | None => (([], Some NotFound), w)
  end.

Fixpoint append_at (d : Directive) (p : Path) (new : Directive) : Directive :=
  match p with
  | [] => mkDirective (Name d) (Args d) (Body d ++ [new])
  | i :: r =>
      mkDirective (Name d) (Args d)
        (map (fun ic => if fst ic =? i then append_at (snd ic) r new else snd ic)
             (combine (seq 0 (List.length (Body d))) (Body d)))
  end.

(** Modelled from the spec: Add resolves its target with Select, where
    NotFound propagates, and appends the new subtree under the first
    match. *)
Definition simAdd (api : nat) (queries : list string) (new : option Directive)
  (w : SimWorld) : option error * SimWorld :=
  match nth_error (docs w) api, new with
  | Some root, Some new =>
      match evaluate root queries with
      | [] => (Some NotFound, w)
      | p :: _ =>
          (None, mkWorld (environ w) (persisted w)
                         (set_nth api (append_at root p new) (docs w)))
      end
  | _, _ => (Some NotFound, w)
  end.

(** Modelled from the spec: a client is opened on the tree that its
    engine loads. *)
Definition simNewClient (engine : option SimEngine) (w : SimWorld)
  : (nat * option error) * SimWorld :=
  match engine with
  | Some _ =>
      ((List.length (docs w), None),
       mkWorld (environ w) (persisted w) (docs w ++ [persisted w]))
  | None => ((0, Some (errors_New "no storage engine")), w)
  end.

Definition simConfiguration (api : nat) (w : SimWorld) : Directive * SimWorld :=
  (nth api (docs w) (persisted w), w).

(** Modelled from the spec: StoreConfiguration persists the canonical
    form of the tree. *)
Definition simStoreConfiguration (e : SimEngine) (cfg : Directive) (w : SimWorld)
  : option error * SimWorld :=
  (None, mkWorld (environ w) cfg (docs w)).

#[export] Instance sim : Collaborators := {
  World := SimWorld;
  Engine := SimEngine;
  Client := nat;
  DirRef := Path;
  Configuration := Directive;
  Manager := unit;
  Routers := unit;
  Http := string;
  mapUnicodeToUpper := fun s => s;
  os_Getenv := fun w key => lookup_env (environ w) key;
  fileStorage_System := fun w => ((Some FileEngine, None), w);
  consul_New := fun address folder token w =>
                  ((Some (ConsulEngine address folder token), None), w);
  client_NewClient := simNewClient;
  client_Select := simSelect;
  client_Add := simAdd;
  client_Configuration := simConfiguration;
  engine_StoreConfiguration := simStoreConfiguration;
  lego_NewManager := fun _ w => ((tt, None), w);
  implementsService := simImplementsService;
  server_Routers := fun _ _ _ _ w => (tt, w);
  server_NewHttp := fun address _ w => (address, w);
  daemon_Start := fun _ w => (None, w)
}.

(** A stored configuration with an empty [http] block. *)
Definition empty_http : Directive :=
  mkDirective "" [] [mkDirective "http" [] []].

Definition start (env : list (string * string)) (tree : Directive) : @State sim :=
  mkState (mkWorld env tree []) [].

(** [ServerCmd] with a flag given on the command line. *)
Definition with_flag (cmd : Command) (name value : string) : Command :=
  mkCommand (Use cmd) (Long cmd)
    (map (fun f => if String.eqb (flag_name f) name
                   then mkFlag (flag_name f) (flag_shorthand f) value (flag_usage f)
                   else f)
         (PersistentFlags cmd)).

(** *** Worlds and commands to run on *)

(** A world that holds the tree [tree], with nothing done yet. *)
Definition fresh : @State sim := start [] empty_http.

(** A stored tree that holds the block of [domain] under [http]. *)
Definition exposed_http (domain : string) : Directive :=
  mkDirective "" []
    [mkDirective "http" []
       [mkDirective "server" []
          [statement "listen" ["80"]; statement "server_name" [domain]]]].

(** A stored tree with two blocks of [domain] under [http]; the second
    one also listens on 443. *)
Definition twice_exposed_http (domain : string) : Directive :=
  mkDirective "" []
    [mkDirective "http" []
       [mkDirective "server" []
          [statement "listen" ["80"]; statement "server_name" [domain]];
        mkDirective "server" []
          [statement "listen" ["80"]; statement "listen" ["443"];
           statement "server_name" [domain]]]].

(** A world in which one client, the client 0, is open on [tree]. *)
Definition opened (tree : Directive) : @State sim :=
  mkState (mkWorld [] tree [tree]) [].


Definition cmd_cluster (cluster : string) : Command :=
  with_flag ServerCmd "cluster" cluster.

(** The stored tree once the block of [domain] has been registered
    under the empty [http]. *)
Definition registered (domain address : string) : Directive :=
  mkDirective "" [] [mkDirective "http" [] [built_skeleton domain address]].

(** The state that the first run of [exposeApi] leaves from [fresh]. *)
Definition registered_state (domain address : string) : @State sim :=
  mkState (mkWorld [] (registered domain address) [registered domain address])
    [EvNewClient (Some FileEngine);
     EvSelect 0 (include_query domain);
     EvSelect 0 (direct_query domain);
     EvAdd 0 ["http"] (Some (built_skeleton domain address));
     EvConfiguration 0;
     EvStoreConfiguration FileEngine (registered domain address)].

(** [ServerCmd] with the flags [api] and [expose] given. *)
Definition cmd_for (domain address : string) : Command :=
  with_flag (with_flag ServerCmd "api" address) "expose" domain.


(** A stored configuration without an [http] block. *)
Definition no_http : Directive := mkDirective "" [] [].

(** A Select that breaks the guarantee of the specification: it
    answers without error also when nothing matches. *)
Definition lenientSelect (api : nat) (queries : list string) (w : SimWorld)
  : (list (option Path) * option error) * SimWorld :=
  match nth_error (docs w) api with
  | Some root => ((map Some (evaluate root queries), None), w)
  | None => (([], Some NotFound), w)
  end.

(** The simulated deployment with that Select. *)
Definition lenient : Collaborators := {|
  World := SimWorld;
  Engine := SimEngine;
  Client := nat;
  DirRef := Path;
  Configuration := Directive;
  Manager := unit;
  Routers := unit;
  Http := string;
  mapUnicodeToUpper := fun s => s;
  os_Getenv := fun w key => lookup_env (environ w) key;
  fileStorage_System := fun w => ((Some FileEngine, None), w);
  consul_New := fun address folder token w =>
                  ((Some (ConsulEngine address folder token), None), w);
  client_NewClient := simNewClient;
  client_Select := lenientSelect;
  client_Add := simAdd;
  client_Configuration := simConfiguration;
  engine_StoreConfiguration := simStoreConfiguration;
  lego_NewManager := fun _ w => ((tt, None), w);
  implementsService := simImplementsService;
  server_Routers := fun _ _ _ _ w => (tt, w);
  server_NewHttp := fun address _ w => (address, w);
  daemon_Start := fun _ w => (None, w)
|}.

End Sim.

(** * Properties *)

Unset Implicit Arguments.

(** ** Strings *)

Lemma append_empty_r (s : string) : (s ++ "")%string = s.
Proof.
  induction s as [|c r IH]; simpl; [reflexivity | now rewrite IH].
Qed.

Lemma Sprintf_aginx (key : string) :
  fmt.Sprintf "aginx_%s" key = ("aginx_" ++ key)%string.
Proof.
  unfold fmt.Sprintf; simpl. now rewrite append_empty_r.
Qed.

Lemma Sprintf_http (address : string) :
  fmt.Sprintf "http://%s" address = ("http://" ++ address)%string.
Proof.
  unfold fmt.Sprintf; simpl. now rewrite append_empty_r.
Qed.

Lemma Sprintf_serverQuery (domain : string) :
  fmt.Sprintf "server.[server_name('%s') & listen('80')]" domain
  = ("server.[server_name('" ++ domain ++ "') & listen('80')]")%string.
Proof.
  reflexivity.
Qed.

Lemma ToUpper_ascii (mapUnicode : string -> string) (s : string) :
  strings.forallb_str strings.isASCII s = true ->
  strings.ToUpper mapUnicode s = strings.map_str strings.upper_byte s.
Proof.
  intros H. unfold strings.ToUpper. now rewrite H.
Qed.

(** ** The path of a parsed connection string *)

(** Destructs the scrutinee of a [match] of the hypothesis [H]. *)
Ltac case_match H :=
  match type of H with
  | context [match ?t with _ => _ end] => destruct t eqn:?
  end.

Lemma substring_all (s : string) : substring 0 (String.length s) s = s.
Proof.
  induction s as [|c r IH]; simpl; [reflexivity | now rewrite IH].
Qed.

Lemma slice_from_1_cons (c : byte) (r : string) : slice_from 1 (String c r) = Some r.
Proof.
  unfold slice_from. simpl. now rewrite Nat.sub_0_r, substring_all.
Qed.

Lemma escape_cons (c : byte) (r : string) (mode : url.encoding) :
  exists c' r', url.escape (String c r) mode = String c' r'.
Proof.
  simpl. destruct (url.shouldEscape c mode);
    [destruct (byte_eqb c " " && url.is_query_mode mode)|]; eauto.
Qed.

Lemma unescape_decode_cons (mode : url.encoding) (c : byte) (r : string) :
  exists c' r', url.unescape_decode mode (String c r) = String c' r'.
Proof.
  simpl. destruct (byte_eqb c "%").
  - destruct r as [|a [|b r']]; eauto.
  - destruct (byte_eqb c "+"); eauto.
Qed.

(** The escaped path is empty exactly when the path is. *)
Lemma EscapedPath_empty_iff (u : url.URL) :
  url.EscapedPath u = "" <-> url.Path u = "".
Proof.
  assert (Hplain : (if (url.Path u =? "*")%string then "*"
                    else url.escape (url.Path u) url.encodePath) = ""
                   <-> url.Path u = "").
  { destruct (url.Path u) as [|c1 r1]; [simpl; tauto|].
    destruct (String.eqb (String c1 r1) "*"); [split; discriminate|].
    destruct (escape_cons c1 r1 url.encodePath) as (c' & r' & ->).
    split; discriminate. }
  unfold url.EscapedPath.
  destruct (url.RawPath u) as [|c r] eqn:Hraw; [exact Hplain|].
  cbn [String.eqb negb andb].
  destruct (url.validEncoded (String c r) url.encodePath); cbn [andb]; [|exact Hplain].
  unfold url.unescape.
  destruct (url.unescape_check url.encodePath (String c r)); [exact Hplain|].
  destruct (unescape_decode_cons url.encodePath c r) as (c' & r' & E). rewrite E.
  destruct (String.eqb_spec (String c' r') (url.Path u)) as [Heq|Hne]; [|exact Hplain].
  rewrite <- Heq. split; discriminate.
Qed.

Lemma substring_head (c : byte) (i : nat) (s : string) :
  substring i 1 s = String c "" ->
  exists r, substring i (String.length s - i) s = String c r.
Proof.
  revert s. induction i as [|i IH]; intros [|x s] H; simpl in H; try discriminate.
  - destruct s; simpl in H; inversion H; subst; simpl; eauto.
  - simpl. apply IH. exact H.
Qed.

Lemma slice_after_index (s : string) (i : nat) :
  strings.Index s "/" = Some i -> exists r, slice_after i s = String "/" r.
Proof.
  intros H. unfold strings.Index in H. apply index_correct1 in H.
  simpl String.length in H. unfold slice_after. now apply substring_head.
Qed.

Lemma prefix_slash (s : string) :
  strings.HasPrefix s "/" = true -> exists r, s = String "/" r.
Proof.
  destruct s as [|c r]; simpl; [discriminate|]. unfold byte_eqb.
  destruct (Ascii.eqb_spec "/" c) as [<-|]; [eauto|discriminate].
Qed.

Lemma setPath_scheme (u0 : url.URL) (p : string) (u : url.URL) :
  url.setPath u0 p = (u, None) -> url.Scheme u = url.Scheme u0.
Proof.
  unfold url.setPath.
  destruct (url.unescape p url.encodePath) as [path [e|]]; [discriminate|].
  destruct (String.eqb p _); intros H; inversion H; reflexivity.
Qed.

Lemma setPath_rooted (u0 : url.URL) (p : string) (u : url.URL) :
  url.setPath u0 p = (u, None) -> rooted p -> rooted (url.EscapedPath u).
Proof.
  unfold url.setPath, url.unescape. intros H Hr.
  destruct (url.unescape_check url.encodePath p); [discriminate|].
  assert (Hu : exists raw,
             u = url.with_path u0 (url.unescape_decode url.encodePath p) raw
             /\ (raw = "" \/ raw = p)).
  { destruct (String.eqb p _); inversion H; eauto. }
  destruct Hu as (raw & -> & Hraw).
  destruct Hr as [->|[r ->]].
  - left. apply EscapedPath_empty_iff. reflexivity.
  - right. unfold url.EscapedPath. cbn [url.with_path url.RawPath url.Path].
    assert (Hd : exists r', url.unescape_decode url.encodePath (String "/" r)
                            = String "/" r') by (simpl; eauto).
    destruct Hd as [r' Hd]. rewrite Hd.
    assert (He : exists r'', url.escape (String "/" r') url.encodePath
                             = String "/" r'') by (simpl; eauto).
    destruct He as [r'' He].
    assert (Hs : (String "/" r' =? "*")%string = false) by reflexivity.
    rewrite Hs, He.
    destruct Hraw as [->| ->]; [simpl; eauto|].
    match goal with
    | |- exists _, (if ?b then _ else _) = _ => destruct b
    end; eauto.
Qed.

Lemma parse_rooted (raw : string) (u : url.URL) :
  url.parse raw false = (Some u, None) -> url.Scheme u <> "" ->
  rooted (url.EscapedPath u).
Proof.
  unfold url.parse. intros H Hs.
  destruct (url.stringContainsCTLByte raw); [discriminate|].
  rewrite andb_false_r in H.
  destruct (String.eqb raw "*").
  { inversion H; subst. now elim Hs. }
  destruct (url.getScheme raw) as [[scheme rest0] [e|]]; [discriminate|].
  set (sch := strings.map_str strings.lower_byte scheme) in *.
  match type of H with
  | context [match ?t with _ => _ end] =>
      destruct t as [[rest rawQuery] forceQuery]
  end.
  destruct (strings.HasPrefix rest "/") eqn:Hpre; cbn [negb andb] in H.
  - (* the rest starts with a slash *)
    case_match H.
    + destruct (strings.Index (slice_after 2 rest) "/") as [i|] eqn:Hi;
        (destruct (url.parseAuthority _) as [[user host] [e|]]; [discriminate|]);
        (destruct (url.setPath _ _) as [u' [e|]] eqn:Hset; [discriminate|]);
        inversion H; subst u'; (apply setPath_rooted in Hset; [exact Hset|]).
      * right. eapply slice_after_index. exact Hi.
      * now left.
    + destruct (url.setPath _ _) as [u' [e|]] eqn:Hset; [discriminate|].
      inversion H; subst u'.
      apply setPath_rooted in Hset; [exact Hset|].
      right. now apply prefix_slash.
  - (* a rootless rest: opaque when there is a scheme *)
    destruct (sch =? "")%string eqn:Hsch; cbn [negb andb] in H.
    + exfalso. apply String.eqb_eq in Hsch.
      case_match H; [discriminate|].
      case_match H.
      * destruct (strings.Index (slice_after 2 rest) "/") as [i|];
          (destruct (url.parseAuthority _) as [[user host] [e|]]; [discriminate|]);
          (destruct (url.setPath _ _) as [u' [e|]] eqn:Hset; [discriminate|]);
          inversion H; subst u'; apply setPath_scheme in Hset;
          apply Hs; rewrite Hset; exact Hsch.
      * destruct (url.setPath _ _) as [u' [e|]] eqn:Hset; [discriminate|].
        inversion H; subst u'. apply setPath_scheme in Hset.
        apply Hs; rewrite Hset; exact Hsch.
    + inversion H; subst. left. reflexivity.
Qed.

(** The escaped path of a parsed connection string that has a scheme
    is empty or starts with a slash. *)
Lemma Parse_rooted (cluster : string) (u : url.URL) :
  url.Parse cluster = (Some u, None) -> url.Scheme u <> "" ->
  rooted (url.EscapedPath u).
Proof.
  unfold url.Parse. destruct (strings.Cut cluster "#") as [[raw frag] found].
  destruct (url.parse raw false) as [[u0|] [e|]] eqn:Hp; try discriminate.
  destruct (String.eqb frag "").
  - intros H; inversion H; subst. now apply (parse_rooted raw).
  - unfold url.setFragment.
    destruct (url.unescape frag url.encodeFragment) as [f [e|]]; [discriminate|].
    intros H; inversion H; subst. intros Hs.
    apply (parse_rooted raw) in Hp; [exact Hp | exact Hs].
Qed.

(** Unfolds the plumbing of a computation and reduces what it exposes. *)
Ltac unfold_M :=
  cbv beta iota zeta
      delta [bind call ret throw PanicIfError deref slice1 index0 Getenv Select].

Section Properties.

Context {C : Collaborators}.

(** ** getString *)

(** The name of the environment variable of an ASCII key is [AGINX_]
    followed by the key in upper case. *)
Lemma envKey_ascii (key : string) :
  strings.forallb_str strings.isASCII key = true ->
  envKey key = ("AGINX_" ++ strings.map_str strings.upper_byte key)%string.
Proof.
  intros H. unfold envKey. rewrite Sprintf_aginx.
  rewrite ToUpper_ascii; [reflexivity | exact H].
Qed.

(** Reading a setting leaves the state as it is. *)
Lemma getString_state (cmd : Command) (key : string) (s : State) :
  snd (getString cmd key s) = s.
Proof.
  unfold getString, bind, Getenv.
  destruct (negb (os_Getenv (world s) (envKey key) =? "")%string); [reflexivity|].
  destruct (GetString (PersistentFlags cmd) key) as [v [e|]]; reflexivity.
Qed.

(** With a value in the environment the flag is not looked at. *)
Lemma getString_from_env (cmd : Command) (key : string) (s : State) :
  os_Getenv (world s) (envKey key) <> "" ->
  getString cmd key s = (Return (os_Getenv (world s) (envKey key)), s).
Proof.
  intros Hne. unfold getString, bind, Getenv.
  destruct (String.eqb_spec (os_Getenv (world s) (envKey key)) "") as [E|_];
    [contradiction|reflexivity].
Qed.

(** Without one the flag decides. *)
Lemma getString_from_flag (cmd : Command) (key : string) (s : State) :
  os_Getenv (world s) (envKey key) = "" ->
  getString cmd key s = (flag_outcome cmd key, s).
Proof.
  intros He. unfold getString, bind, Getenv, flag_outcome. rewrite He. simpl.
  destruct (GetString (PersistentFlags cmd) key) as [v [e|]]; reflexivity.
Qed.

(** C9. For every key, [getString] returns the value of the environment
    variable whose name is [aginx_<key>] in upper case whenever that
    value is not empty, whatever the flag holds, and the value of the
    flag in the other case only; for an ASCII key the name of the
    variable is [AGINX_<KEY>]. *)
Theorem getString_env_overrides_flag (cmd : Command) (key : string) (s : State) :
  let value := os_Getenv (world s) (envKey key) in
  (value <> "" -> getString cmd key s = (Return value, s))
  /\ (value = "" -> getString cmd key s = (flag_outcome cmd key, s))
  /\ (strings.forallb_str strings.isASCII key = true ->
      envKey key = ("AGINX_" ++ strings.map_str strings.upper_byte key)%string).
Proof.
  intros value. split; [|split].
  - apply getString_from_env.
  - apply getString_from_flag.
  - apply envKey_ascii.
Qed.

(** ** apiServer *)

(** The construction of [apiServer], run on an empty store and read
    back from the pointer it returns. *)
Lemma built_apiServer_build (domain address : string) :
  built (apiServer_build domain address) = Some (built_skeleton domain address).
Proof.
  unfold built, apiServer_build, built_skeleton, backend, statement.
  cbn -[fmt.Sprintf strings.HasPrefix String.append].
  now rewrite Sprintf_http.
Qed.

(** C2, as amended. For every domain and address, [apiServer] returns
    a server block with [listen 80] and [server_name <domain>] whose
    [location /] holds, in this order, [proxy_redirect default], the
    [proxy_pass] to the address (on 127.0.0.1 when the address is a bare
    [:port]), the three forwarded headers, the two body sizes, the three
    timeouts of 90 and [proxy_buffers 32 4k]. *)
Theorem apiServer_builds_skeleton (domain address : string) :
  apiServer domain address = Some (built_skeleton domain address).
Proof.
  unfold apiServer. apply built_apiServer_build.
Qed.

(** C2, as stated, fails: the block that the code builds for
    [example.com] and [127.0.0.1:8011] is not the specified skeleton,
    its location starts with [proxy_redirect default]. *)
Lemma apiServer_not_specified_skeleton :
  apiServer "example.com" "127.0.0.1:8011"
  <> Some (specified_skeleton "example.com" "127.0.0.1:8011").
Proof.
  vm_compute. discriminate.
Qed.

(** With a bare port, the default of the [api] flag, the proxied
    address differs from the given one as well. *)
Lemma apiServer_bare_port :
  apiServer "example.com" ":8011" = Some (built_skeleton "example.com" ":8011")
  /\ backend ":8011" = "127.0.0.1:8011".
Proof.
  split; reflexivity.
Qed.

(** ** clusterConfiguration *)

(** The empty string parses to the URL with every field empty. *)
Lemma Parse_empty : url.Parse "" = (Some url.zero, None).
Proof.
  reflexivity.
Qed.

(** A connection string that parses to a URL with a scheme is not empty. *)
Lemma scheme_nonempty_string (cluster : string) (config : url.URL) :
  url.Parse cluster = (Some config, None) -> url.Scheme config <> "" ->
  (cluster =? "")%string = false.
Proof.
  intros Hp Hs. destruct (String.eqb_spec cluster "") as [->|]; [|reflexivity].
  rewrite Parse_empty in Hp. inversion Hp; subst. now elim Hs.
Qed.

(** The [else] branch of [clusterConfiguration] on a parsed string. *)
Lemma clusterConfiguration_parsed (cluster : string) (config : url.URL) (s : State) :
  (cluster =? "")%string = false ->
  url.Parse cluster = (Some config, None) ->
  clusterConfiguration cluster s =
    if (url.Scheme config =? "consul")%string then
      match slice_from 1 (url.EscapedPath config) with
      | Some folder =>
          consul_backend (url.Host config) folder
                         (url.Get (url.Query config) "token") s
      | None => (Panicked slice_out_of_range, s)
      end
    else (Return None, s).
Proof.
  intros Hne Hp. unfold clusterConfiguration. rewrite Hne, Hp.
  cbn [option_map]. unfold_M.
  destruct (url.Scheme config =? "consul")%string; [|reflexivity].
  unfold consul_backend, constructed.
  destruct (slice_from 1 (url.EscapedPath config)) as [folder|]; [|reflexivity].
  destruct (consul_New _ _ _ _) as [[engine [e|]] w]; reflexivity.
Qed.

(** C1, the behaviour of the code. For every non-empty connection
    string that parses to a scheme other than [consul],
    [clusterConfiguration] returns normally, with a nil engine, and
    leaves the state as it found it: it does not panic. *)
Theorem clusterConfiguration_unrecognized_scheme_nil
  (cluster : string) (config : url.URL) (s : State) :
  cluster <> "" ->
  url.Parse cluster = (Some config, None) ->
  url.Scheme config <> "consul" ->
  clusterConfiguration cluster s = (Return None, s).
Proof.
  intros Hne Hp Hs.
  rewrite (clusterConfiguration_parsed _ _ s (proj2 (String.eqb_neq _ _) Hne) Hp).
  destruct (String.eqb_spec (url.Scheme config) "consul"); [contradiction|reflexivity].
Qed.

(** C4, as amended. For the empty connection string,
    [clusterConfiguration] resolves to the local file backend: it
    returns what [fileStorage.System()] constructs and panics when that
    call fails. *)
Theorem clusterConfiguration_empty_string_file_backend (s : State) :
  clusterConfiguration "" s = file_backend s.
Proof.
  unfold clusterConfiguration, file_backend, constructed. cbn [String.eqb].
  unfold_M.
  destruct (fileStorage_System (world s)) as [[engine [e|]] w]; reflexivity.
Qed.

(** C6. For every connection string that parses to the scheme
    [consul] and carries a path, the escaped path is a slash followed
    by a folder, and [clusterConfiguration] constructs the consul
    backend from the host, that folder and the first [token] parameter
    of the query. *)
Theorem clusterConfiguration_consul_components
  (cluster : string) (config : url.URL) (s : State) :
  url.Parse cluster = (Some config, None) ->
  url.Scheme config = "consul" ->
  url.Path config <> "" ->
  exists folder,
    url.EscapedPath config = String "/" folder
    /\ clusterConfiguration cluster s =
       consul_backend (url.Host config) folder
                      (url.Get (url.Query config) "token") s.
Proof.
  intros Hp Hs Hpath.
  assert (Hsne : url.Scheme config <> "") by (rewrite Hs; discriminate).
  destruct (Parse_rooted _ _ Hp Hsne) as [He|[folder He]].
  - apply EscapedPath_empty_iff in He. contradiction.
  - exists folder. split; [exact He|].
    rewrite (clusterConfiguration_parsed _ _ s (scheme_nonempty_string _ _ Hp Hsne) Hp).
    rewrite Hs, He, slice_from_1_cons. reflexivity.
Qed.

(** C8. For every connection string that parses to the scheme
    [consul]: when its path is empty the slice [EscapedPath()[1:]] is
    out of bounds and [clusterConfiguration] panics with that run-time
    error before any backend is constructed; when its path is not empty
    the slice is in bounds and that panic does not occur. *)
Theorem clusterConfiguration_consul_slice_bounds
  (cluster : string) (config : url.URL) (s : State) :
  url.Parse cluster = (Some config, None) ->
  url.Scheme config = "consul" ->
  (url.Path config = "" ->
     slice_from 1 (url.EscapedPath config) = None
     /\ clusterConfiguration cluster s = (Panicked slice_out_of_range, s))
  /\ (url.Path config <> "" ->
       slice_from 1 (url.EscapedPath config) <> None
       /\ fst (clusterConfiguration cluster s) <> Panicked slice_out_of_range).
Proof.
  intros Hp Hs.
  assert (Hsne : url.Scheme config <> "") by (rewrite Hs; discriminate).
  pose proof (clusterConfiguration_parsed _ _ s
                (scheme_nonempty_string _ _ Hp Hsne) Hp) as Hc.
  rewrite Hs in Hc. cbn [String.eqb Ascii.eqb Bool.eqb] in Hc.
  split; intros Hpath.
  - apply EscapedPath_empty_iff in Hpath. rewrite Hpath in *.
    split; [reflexivity | exact Hc].
  - destruct (Parse_rooted _ _ Hp Hsne) as [He|[folder He]].
    + apply EscapedPath_empty_iff in He. contradiction.
    + rewrite He, slice_from_1_cons in *. split; [discriminate|].
      rewrite Hc. unfold consul_backend, constructed.
      destruct (consul_New _ _ _ _) as [[engine [e|]] w]; discriminate.
Qed.

(** ** selectDirective *)

(** [selectDirective] according to the answers of its two Selects. *)
Lemma selectDirective_cases (api : Client) (domain : string) (s : State) :
  selectDirective api domain s =
    let '((ds1, err1), w1) := client_Select api (include_query domain) (world s) in
    let s1 := after (EvSelect api (include_query domain)) w1 s in
    match err1, ds1 with
    | None, d :: _ => (Return (include_query domain, d), s1)
    | None, [] => (Panicked index_out_of_range, s1)
    | Some _, _ =>
        let '((ds2, err2), w2) := client_Select api (direct_query domain) w1 in
        let s2 := after (EvSelect api (direct_query domain)) w2 s1 in
        match err2, ds2 with
        | None, d :: _ => (Return (direct_query domain, d), s2)
        | None, [] => (Panicked index_out_of_range, s2)
        | Some _, _ => (Return (direct_query domain, None), s2)
        end
    end.
Proof.
  unfold selectDirective, serverQuery, Queries, include_query, direct_query, after.
  rewrite Sprintf_serverQuery. unfold_M. cbn [world trace].
  destruct (client_Select api _ (world s)) as [[ds1 [e1|]] w1]; unfold_M.
  - cbn [world trace].
    destruct (client_Select api _ w1) as [[ds2 [e2|]] w2]; unfold_M;
      [reflexivity|].
    destruct ds2; reflexivity.
  - destruct ds1; reflexivity.
Qed.

(** C3. [selectDirective] first issues the query that probes inside an
    include.  When that Select answers with matches, it returns that
    query and its first directive, and no second Select is issued.
    When that Select answers with an error, and only then, it issues
    the query for the directly present shape and returns that query
    with its first directive, or with a nil directive when the second
    Select answers with an error too.  The answers are taken under the
    guarantee that an answer without error holds a match. *)
Theorem selectDirective_fallback
  (api : Client) (domain : string) (s : State)
  (ds1 : list (option DirRef)) (err1 : option error) (w1 : World) :
  client_Select api (include_query domain) (world s) = ((ds1, err1), w1) ->
  (err1 = None -> ds1 <> []) ->
  let s1 := after (EvSelect api (include_query domain)) w1 s in
  (err1 = None ->
     exists d rest, ds1 = d :: rest
       /\ selectDirective api domain s = (Return (include_query domain, d), s1))
  /\ (err1 <> None ->
       forall ds2 err2 w2,
         client_Select api (direct_query domain) w1 = ((ds2, err2), w2) ->
         (err2 = None -> ds2 <> []) ->
         let s2 := after (EvSelect api (direct_query domain)) w2 s1 in
         (err2 = None ->
            exists d rest, ds2 = d :: rest
              /\ selectDirective api domain s = (Return (direct_query domain, d), s2))
         /\ (err2 <> None ->
              selectDirective api domain s = (Return (direct_query domain, None), s2))).
Proof.
  intros H1 G1 s1. rewrite selectDirective_cases, H1. fold s1. split.
  - intros ->. destruct ds1 as [|d rest]; [now elim G1|]. eauto.
  - intros Herr ds2 err2 w2 H2 G2 s2.
    destruct err1 as [e1|]; [|now elim Herr]. rewrite H2. fold s2. split.
    + intros ->. destruct ds2 as [|d rest]; [now elim G2|]. eauto.
    + intros Herr2. destruct err2 as [e2|]; [reflexivity|now elim Herr2].
Qed.

(** C5. Under the guarantee that an answer of Select without error
    holds a match, [selectDirective] does not panic, and when a Select
    that it reads answers with the matches [d :: rest] it returns [d],
    the first in document order: for the first query, and for the
    second query after an error of the first. *)
Theorem selectDirective_first_match (api : Client) (domain : string) (s : State) :
  Select_guarantee ->
  (exists result s', selectDirective api domain s = (Return result, s'))
  /\ (forall d rest w1,
        client_Select api (include_query domain) (world s) = ((d :: rest, None), w1) ->
        selectDirective api domain s =
          (Return (include_query domain, d),
           after (EvSelect api (include_query domain)) w1 s))
  /\ (forall ds1 e w1 d rest w2,
        client_Select api (include_query domain) (world s) = ((ds1, Some e), w1) ->
        client_Select api (direct_query domain) w1 = ((d :: rest, None), w2) ->
        selectDirective api domain s =
          (Return (direct_query domain, d),
           after (EvSelect api (direct_query domain)) w2
                 (after (EvSelect api (include_query domain)) w1 s))).
Proof.
  intros G. rewrite selectDirective_cases. split; [|split].
  - destruct (client_Select api (include_query domain) (world s))
      as [[ds1 [e1|]] w1] eqn:H1.
    + destruct (client_Select api (direct_query domain) w1)
        as [[ds2 [e2|]] w2] eqn:H2; [eauto|].
      destruct ds2 as [|d rest]; [|eauto]. now elim (G _ _ _ _ _ H2).
    + destruct ds1 as [|d rest]; [|eauto]. now elim (G _ _ _ _ _ H1).
  - intros d rest w1 H1. now rewrite H1.
  - intros ds1 e w1 d rest w2 H1 H2. now rewrite H1, H2.
Qed.

(** Without the guarantee the access fails: an answer without error
    and without match makes [directives[0]] panic. *)
Lemma selectDirective_empty_answer_panics (api : Client) (domain : string)
  (s : State) (w1 : World) :
  client_Select api (include_query domain) (world s) = (([], None), w1) ->
  selectDirective api domain s =
    (Panicked index_out_of_range,
     after (EvSelect api (include_query domain)) w1 s).
Proof.
  intros H. now rewrite selectDirective_cases, H.
Qed.

(** ** exposeApi *)






(** [exposeApi] after its two settings have been read. *)
Lemma exposeApi_cases (cmd : Command) (engine : option Engine) (s : State)
  (address domain : string) :
  getString cmd "api" s = (Return address, s) ->
  getString cmd "expose" s = (Return domain, s) ->
  exposeApi cmd engine s =
    if (domain =? "")%string then (Return tt, s)
    else
      let '((api, err), w1) := client_NewClient engine (world s) in
      let s1 := after (EvNewClient engine) w1 s in
      match err with
      | Some e => (Panicked (PanicError e), s1)
      | None =>
          match selectDirective api domain s1 with
          | (Return (_, Some _), s2) => (Return tt, s2)
          | (Return (_, None), s2) => register api domain address engine s2
          | (Panicked p, s2) => (Panicked p, s2)
          end
      end.
Proof.
  intros Ha He. unfold exposeApi, bind at 1 2. rewrite Ha, He.
  destruct (domain =? "")%string; [reflexivity|].
  unfold bind at 1, call at 1, after.
  destruct (client_NewClient engine (world s)) as [[api [e|]] w1]; [reflexivity|].
  unfold bind at 1, PanicIfError at 1, ret at 1.
  unfold bind at 1.
  destruct (selectDirective api domain _) as [[[queries [ref|]]|p] s2]; reflexivity.
Qed.



(** ** ServerCmd.RunE: the daemon and the engine *)

(** The services of the daemon once the engine has been looked at. *)
Lemma registerEngine_services (engine : option Engine) :
  services (registerEngine NewDaemon engine) =
    match engine with
    | Some e => if implementsService e then [EngineService e] else []
    | None => []
    end.
Proof.
  unfold registerEngine, assertService.
  destruct engine as [e|]; [|reflexivity].
  destruct (implementsService e); reflexivity.
Qed.

(** The engine is among them exactly when it has the capability. *)
Lemma registerEngine_iff (engine : option Engine) (e : Engine) :
  In (EngineService e) (services (registerEngine NewDaemon engine))
  <-> engine = Some e /\ implementsService e = true.
Proof.
  rewrite registerEngine_services. destruct engine as [e'|].
  - destruct (implementsService e') eqn:Hi; simpl.
    + split.
      * intros [H|[]]. inversion H; subst. now split.
      * intros [H _]. inversion H; subst. now left.
    + split; [intros []|]. intros [H Hi']. inversion H; subst. congruence.
  - simpl. split; [intros []|intros [H _]; discriminate].
Qed.

(** C7. In a run of the command that selects the engine [engine] and
    reaches the start of the daemon, the daemon that is started holds
    the engine as a Service exactly when the engine is not nil and
    implements Service: an engine without the capability, as the local
    file backend, is not in the service set, an engine with it, as a
    clustered backend, is; the other services are the HTTP listener,
    the supervisor and the certificate manager. *)
Theorem daemon_registers_engine_iff_service
  (cmd : Command) (args : list string) (s s1 s2 : State)
  (address auth cluster : string) (engine : option Engine)
  (manager : Manager) (w3 : World) :
  getString cmd "api" s = (Return address, s) ->
  getString cmd "security" s = (Return auth, s) ->
  getString cmd "cluster" s = (Return cluster, s) ->
  clusterConfiguration cluster s = (Return engine, s1) ->
  exposeApi cmd engine s1 = (Return tt, s2) ->
  lego_NewManager engine (world s2) = ((manager, None), w3) ->
  (forall e, In (EngineService e) (services (registerEngine NewDaemon engine))
             <-> engine = Some e /\ implementsService e = true)
  /\ exists d http s',
      RunE cmd args s =
        (Return (fst (daemon_Start d (world s'))),
         after (EvStart d) (snd (daemon_Start d (world s'))) s')
      /\ services d =
         services (registerEngine NewDaemon engine)
         ++ [HttpService http; SupervisterService newSupervister;
             ManagerService manager]
      /\ forall e, In (EngineService e) (services d)
                   <-> engine = Some e /\ implementsService e = true.
Proof.
  intros Ha Hs Hc Hcl Hex Hm. split; [apply registerEngine_iff|].
  unfold RunE, Catch. unfold bind at 1 2 3. rewrite Ha, Hs, Hc.
  unfold bind at 1. rewrite Hcl. unfold bind at 1. rewrite Hex.
  unfold bind at 1, call at 1. rewrite Hm. unfold_M. cbn [world trace].
  destruct (server_Routers newSupervister engine manager auth w3)
    as [routers w4].
  unfold_M. cbn [world trace].
  destruct (server_NewHttp address routers w4) as [http w5].
  unfold_M. cbn [world trace].
  set (d := Daemon_Add (registerEngine NewDaemon engine)
              [HttpService http; SupervisterService newSupervister;
               ManagerService manager]).
  set (s' := mkState w5 (((trace s2 ++ [EvNewManager engine])
                          ++ [EvRouters auth]) ++ [EvNewHttp address])).
  exists d, http, s'. split; [|split].
  - unfold after. cbn [world trace]. subst s'. cbn [world trace].
    destruct (daemon_Start d w5) as [err w6]. reflexivity.
  - reflexivity.
  - intros e. subst d. unfold Daemon_Add. cbn [services].
    rewrite in_app_iff, registerEngine_iff. split; [|tauto].
    intros [H|H]; [exact H|]. simpl in H.
    destruct H as [H|[H|[H|[]]]]; discriminate.
Qed.

End Properties.

(** * Further properties of the command *)

(** ** The flags *)





(** The address of a bare port is the port on the loopback interface,
    and that address is kept as it is. *)
Lemma backend_bare_port (port : string) :
  backend (String ":" port) = ("127.0.0.1:" ++ port)%string
  /\ backend ("127.0.0.1:" ++ port)%string = ("127.0.0.1:" ++ port)%string.
Proof.
  split; [destruct port|]; reflexivity.
Qed.

Section Further.

Context {C : Collaborators}.

(** ** getString *)



(** Reading a setting returns or panics, in the state it started from. *)
Lemma getString_outcome (cmd : Command) (key : string) (s : State) :
  exists o, getString cmd key s = (o, s).
Proof.
  pose proof (getString_state cmd key s) as H.
  destruct (getString cmd key s) as [o s0]. cbn [snd] in H. subst s0. eauto.
Qed.

(** ** clusterConfiguration *)

(** X3. A connection string that [url.Parse] refuses is fatal:
    [clusterConfiguration] panics with the error of the parser, and no
    backend is constructed, the state is the one it started from. *)
Theorem clusterConfiguration_unparsable_panics
  (cluster : string) (u : option url.URL) (e : url.Error) (s : State) :
  url.Parse cluster = (u, Some e) ->
  clusterConfiguration cluster s = (Panicked (PanicError (url_Error e)), s).
Proof.
  intros Hp. unfold clusterConfiguration.
  destruct (String.eqb_spec cluster "") as [->|_].
  - rewrite Parse_empty in Hp. discriminate.
  - rewrite Hp. reflexivity.
Qed.

(** The runs of [clusterConfiguration]: no call at all, the call of the
    file backend, or the call of the consul backend. *)
Lemma clusterConfiguration_runs (cluster : string) (s : State) :
  (snd (clusterConfiguration cluster s) = s
   /\ (fst (clusterConfiguration cluster s) = Return None
       \/ exists p, fst (clusterConfiguration cluster s) = Panicked p))
  \/ (cluster = "" /\ clusterConfiguration cluster s = file_backend s)
  \/ (exists config folder,
        url.Parse cluster = (Some config, None)
        /\ url.Scheme config = "consul"
        /\ url.EscapedPath config = String "/" folder
        /\ clusterConfiguration cluster s
           = consul_backend (url.Host config) folder
                            (url.Get (url.Query config) "token") s).
Proof.
  destruct (String.eqb_spec cluster "") as [->|Hne].
  - right. left. split; [reflexivity|].
    unfold clusterConfiguration, file_backend, constructed. cbn [String.eqb].
    unfold_M. destruct (fileStorage_System (world s)) as [[engine [e|]] w];
      reflexivity.
  - destruct (url.Parse cluster) as [[config|] [e|]] eqn:Hp.
    + left. unfold clusterConfiguration.
      rewrite (proj2 (String.eqb_neq _ _) Hne), Hp.
      split; [reflexivity|]. right. cbn. eauto.
    + pose proof (proj2 (String.eqb_neq _ _) Hne) as Hb.
      rewrite (clusterConfiguration_parsed _ _ s Hb Hp).
      destruct (String.eqb_spec (url.Scheme config) "consul") as [Hs|Hs];
        [|left; split; [reflexivity|now left]].
      destruct (url.EscapedPath config) as [|c folder] eqn:Hpath.
      * left. cbn. split; [reflexivity|]. right. eauto.
      * right. right. exists config, folder.
        assert (Hr : rooted (url.EscapedPath config)).
        { apply (Parse_rooted cluster config Hp). rewrite Hs. discriminate. }
        rewrite Hpath in Hr. destruct Hr as [Hr|[r Hr]]; [discriminate|].
        inversion Hr; subst. rewrite slice_from_1_cons. repeat split; assumption.
    + left. unfold clusterConfiguration.
      rewrite (proj2 (String.eqb_neq _ _) Hne), Hp.
      split; [reflexivity|]. right. cbn. eauto.
    + left. unfold clusterConfiguration.
      rewrite (proj2 (String.eqb_neq _ _) Hne), Hp. cbn [option_map]. unfold_M.
      split; [reflexivity|]. right. cbn [fst]. eauto.
Qed.

(** X4. In every run, [clusterConfiguration] makes at most one call
    outside this file: [fileStorage.System] for the empty string only,
    [consul.New] for a string that parses to the scheme consul with a
    path only, and in every other run no call at all, where it returns
    a nil engine or panics; so an engine that is not nil is always the
    one that one of the two constructors returned without error. *)
Theorem clusterConfiguration_constructs_at_most_once (cluster : string) (s : State) :
  let r := clusterConfiguration cluster s in
  ((snd r = s /\ (fst r = Return None \/ exists p, fst r = Panicked p))
   \/ (cluster = "" /\ r = file_backend s)
   \/ (exists config folder,
         url.Parse cluster = (Some config, None)
         /\ url.Scheme config = "consul"
         /\ url.EscapedPath config = String "/" folder
         /\ r = consul_backend (url.Host config) folder
                               (url.Get (url.Query config) "token") s))
  /\ (forall e, fst r = Return (Some e) ->
        (cluster = ""
         /\ fileStorage_System (world s) = ((Some e, None), world (snd r))
         /\ trace (snd r) = trace s ++ [EvSystem])
        \/ (exists config folder,
              url.Parse cluster = (Some config, None)
              /\ url.Scheme config = "consul"
              /\ consul_New (url.Host config) folder
                            (url.Get (url.Query config) "token") (world s)
                 = ((Some e, None), world (snd r))
              /\ trace (snd r)
                 = trace s ++ [EvConsulNew (url.Host config) folder
                                 (url.Get (url.Query config) "token")])).
Proof.
  intros r. subst r. split; [apply clusterConfiguration_runs|].
  intros e He.
  destruct (clusterConfiguration_runs cluster s)
    as [[_ [H|[p H]]]|[[Hc H]|(config & folder & Hp & Hs & _ & H)]].
  - rewrite H in He. discriminate.
  - rewrite H in He. discriminate.
  - left. split; [exact Hc|]. rewrite H in He |- *.
    unfold file_backend, constructed in *.
    destruct (fileStorage_System (world s)) as [[engine [e1|]] w];
      cbn [fst snd world trace] in *; [discriminate|].
    inversion He. now split.
  - right. exists config, folder. split; [exact Hp|]. split; [exact Hs|].
    rewrite H in He |- *. unfold consul_backend, constructed in *.
    destruct (consul_New _ _ _ (world s)) as [[engine [e1|]] w];
      cbn [fst snd world trace] in *; [discriminate|].
    inversion He. now split.
Qed.

(** The calls of [clusterConfiguration] prepare the start. *)
Lemma clusterConfiguration_preparation (cluster : string) (s : State) :
  exists evs,
    trace (snd (clusterConfiguration cluster s)) = trace s ++ evs
    /\ forallb preparation evs = true.
Proof.
  destruct (clusterConfiguration_runs cluster s)
    as [[H _]|[[_ H]|(config & folder & _ & _ & _ & H)]].
  - exists []. rewrite H. split; [now rewrite app_nil_r|reflexivity].
  - exists [EvSystem]. rewrite H. split; [|reflexivity].
    unfold file_backend, constructed.
    now destruct (fileStorage_System (world s)) as [[engine err] w].
  - eexists [EvConsulNew _ _ _]. rewrite H. split; [|reflexivity].
    unfold consul_backend, constructed.
    now destruct (consul_New _ _ _ (world s)) as [[engine err] w].
Qed.

(** ** selectDirective *)

(** X5. The access [directives[0]] is not guarded: when the Select
    that [selectDirective] reads last, the first one or after its
    error the second one, answers without error and without match,
    [selectDirective] panics with an index out of range. *)
Theorem selectDirective_empty_answer_out_of_range
  (api : Client) (domain : string) (s s' : State) :
  (exists w1,
      client_Select api (include_query domain) (world s) = (([], None), w1)
      /\ s' = after (EvSelect api (include_query domain)) w1 s)
  \/ (exists ds1 e w1 w2,
        client_Select api (include_query domain) (world s) = ((ds1, Some e), w1)
        /\ client_Select api (direct_query domain) w1 = (([], None), w2)
        /\ s' = after (EvSelect api (direct_query domain)) w2
                      (after (EvSelect api (include_query domain)) w1 s)) ->
  selectDirective api domain s = (Panicked index_out_of_range, s').
Proof.
  rewrite selectDirective_cases.
  intros [(w1 & H1 & ->)|(ds1 & e & w1 & w2 & H1 & H2 & ->)].
  - now rewrite H1.
  - now rewrite H1, H2.
Qed.

(** The events of [selectDirective] are Selects. *)
Lemma selectDirective_reading (api : Client) (domain : string) (s : State) :
  exists evs, trace (snd (selectDirective api domain s)) = trace s ++ evs
              /\ forallb reading evs = true.
Proof.
  rewrite selectDirective_cases.
  destruct (client_Select api (include_query domain) (world s))
    as [[ds1 [e1|]] w1].
  - cbv zeta.
    destruct (client_Select api (direct_query domain) w1) as [[ds2 [e2|]] w2].
    + exists [EvSelect api (include_query domain); EvSelect api (direct_query domain)].
      split; [|reflexivity]. cbn [snd after trace]. now rewrite <- app_assoc.
    + exists [EvSelect api (include_query domain); EvSelect api (direct_query domain)].
      split; [|reflexivity].
      destruct ds2; cbn [snd after trace]; now rewrite <- app_assoc.
  - exists [EvSelect api (include_query domain)]. split; [|reflexivity].
    destruct ds1; reflexivity.
Qed.

(** ** apiServer *)

(** X6. For every domain and port, [apiServer] builds for the bare
    port [:port] the block that it builds for [127.0.0.1:port]: the
    block proxies to the loopback interface, never to a target without
    host. *)
Theorem apiServer_bare_port_on_loopback (domain port : string) :
  apiServer domain (String ":" port) = apiServer domain ("127.0.0.1:" ++ port)%string
  /\ apiServer domain (String ":" port)
     = Some (built_skeleton domain ("127.0.0.1:" ++ port)%string).
Proof.
  unfold apiServer. rewrite !built_apiServer_build. unfold built_skeleton.
  destruct (backend_bare_port port) as [-> ->]. split; reflexivity.
Qed.

(** ** exposeApi *)

(** The runs of [register]. *)
Lemma register_cases (api : Client) (domain address : string)
  (engine : option Engine) (s : State) :
  let add := EvAdd api ["http"] (apiServer domain address) in
  register api domain address engine s =
    let '(err, w1) := client_Add api ["http"] (apiServer domain address) (world s) in
    match err with
    | Some e => (Panicked (PanicError e), after add w1 s)
    | None =>
        let '(cfg, w2) := client_Configuration api w1 in
        let s2 := after (EvConfiguration api) w2 (after add w1 s) in
        match engine with
        | None => (Panicked nil_dereference, s2)
        | Some en =>
            let '(err, w3) := engine_StoreConfiguration en cfg w2 in
            (match err with
             | Some e => Panicked (PanicError e)
             | None => Return tt
             end, after (EvStoreConfiguration en cfg) w3 s2)
        end
    end.
Proof.
  intros add. subst add. unfold register, Queries, after. unfold_M.
  destruct (client_Add api _ _ (world s)) as [[e1|] w1]; unfold_M; [reflexivity|].
  cbn [world trace].
  destruct (client_Configuration api w1) as [cfg w2]; unfold_M.
  destruct engine as [e|]; unfold_M; [|reflexivity].
  cbn [world trace].
  destruct (engine_StoreConfiguration e cfg w2) as [[e3|] w3]; reflexivity.
Qed.

(** X7. When [client.NewClient] answers with an error, [exposeApi]
    panics with that error at once: no Select, no Add and no
    StoreConfiguration is issued. *)
Theorem exposeApi_NewClient_error_is_fatal
  (cmd : Command) (engine : option Engine) (s : State)
  (address domain : string) (api : Client) (e : error) (w1 : World) :
  getString cmd "api" s = (Return address, s) ->
  getString cmd "expose" s = (Return domain, s) ->
  domain <> "" ->
  client_NewClient engine (world s) = ((api, Some e), w1) ->
  exposeApi cmd engine s
  = (Panicked (PanicError e), after (EvNewClient engine) w1 s).
Proof.
  intros Ha He Hd Hn. rewrite (exposeApi_cases cmd engine s address domain Ha He).
  destruct (String.eqb_spec domain "") as [|_]; [contradiction|].
  now rewrite Hn.
Qed.

(** X8. When the block is not found and the Add under [http] answers
    with an error, [exposeApi] panics with that error and nothing is
    stored: the Add is its last call, the configuration is not read
    and StoreConfiguration is not issued. *)
Theorem exposeApi_Add_error_is_fatal
  (cmd : Command) (engine : option Engine) (s s2 : State)
  (address domain : string) (api : Client) (w1 w3 : World)
  (queries : list string) (e : error) :
  getString cmd "api" s = (Return address, s) ->
  getString cmd "expose" s = (Return domain, s) ->
  domain <> "" ->
  client_NewClient engine (world s) = ((api, None), w1) ->
  selectDirective api domain (after (EvNewClient engine) w1 s)
    = (Return (queries, None), s2) ->
  client_Add api ["http"] (apiServer domain address) (world s2) = (Some e, w3) ->
  exposeApi cmd engine s
  = (Panicked (PanicError e),
     after (EvAdd api ["http"] (apiServer domain address)) w3 s2).
Proof.
  intros Ha He Hd Hn Hsel Hadd.
  rewrite (exposeApi_cases cmd engine s address domain Ha He).
  destruct (String.eqb_spec domain "") as [|_]; [contradiction|].
  rewrite Hn. cbv zeta. rewrite Hsel, register_cases, Hadd. reflexivity.
Qed.

Lemma reading_preparation (evs : list Event) :
  forallb reading evs = true -> forallb preparation evs = true.
Proof.
  induction evs as [|ev r IH]; [reflexivity|]. simpl.
  intros H. apply andb_prop in H. destruct H as [H1 H2].
  rewrite (IH H2). destruct ev; try discriminate; reflexivity.
Qed.

(** A run of [exposeApi] reads, and then either stops or registers. *)
Lemma exposeApi_probe (cmd : Command) (engine : option Engine) (s : State) :
  exists pre,
    forallb reading pre = true
    /\ (trace (snd (exposeApi cmd engine s)) = trace s ++ pre
        \/ exists api domain address s2,
             trace s2 = trace s ++ pre
             /\ exposeApi cmd engine s = register api domain address engine s2).
Proof.
  destruct (getString_outcome cmd "api" s) as [[address|p] Ha].
  2:{ exists []. split; [reflexivity|]. left.
      unfold exposeApi, bind at 1. rewrite Ha. cbn. now rewrite app_nil_r. }
  destruct (getString_outcome cmd "expose" s) as [[domain|p] He].
  2:{ exists []. split; [reflexivity|]. left.
      unfold exposeApi, bind at 1 2. rewrite Ha, He. cbn. now rewrite app_nil_r. }
  rewrite (exposeApi_cases cmd engine s address domain Ha He).
  destruct (domain =? "")%string.
  { exists []. split; [reflexivity|]. left. cbn. now rewrite app_nil_r. }
  destruct (client_NewClient engine (world s)) as [[api [e|]] w1]; cbv zeta.
  { exists [EvNewClient engine]. split; [reflexivity|]. now left. }
  destruct (selectDirective_reading api domain (after (EvNewClient engine) w1 s))
    as (evs & Ht & Hr).
  exists (EvNewClient engine :: evs). split; [exact Hr|].
  destruct (selectDirective api domain (after (EvNewClient engine) w1 s))
    as [[[queries [ref|]]|p] s2]; cbn [snd] in Ht |- *.
  - left. rewrite Ht. cbn [after trace]. now rewrite <- app_assoc.
  - right. exists api, domain, address, s2. split; [|reflexivity].
    rewrite Ht. cbn [after trace]. now rewrite <- app_assoc.
  - left. rewrite Ht. cbn [after trace]. now rewrite <- app_assoc.
Qed.

(** X9. In every run, whatever the collaborators answer, [exposeApi]
    first only reads, it opens a client and selects, and then either
    stops there or goes on with one Add of the built block under
    [http].  When that Add fails it panics and nothing follows.  With a
    nil engine it panics on the nil engine and never stores.  With an
    engine it reads the configuration and issues one
    StoreConfiguration on that engine as its last call, and returns or
    panics with the error of the store.  So at most one Add and one
    StoreConfiguration are issued, and a StoreConfiguration only after
    an Add that succeeded. *)
Theorem exposeApi_stores_only_after_add
  (cmd : Command) (engine : option Engine) (s : State) :
  let r := exposeApi cmd engine s in
  exists pre,
    forallb reading pre = true
    /\ (trace (snd r) = trace s ++ pre
        \/ exists api domain address,
             let add := EvAdd api ["http"] (apiServer domain address) in
             (trace (snd r) = trace s ++ pre ++ [add]
              /\ exists e, fst r = Panicked (PanicError e))
             \/ (engine = None
                 /\ fst r = Panicked nil_dereference
                 /\ exists tail, trace (snd r) = trace s ++ pre ++ add :: tail
                                 /\ quiet tail)
             \/ (exists en cfg,
                   engine = Some en
                   /\ trace (snd r)
                      = trace s ++ pre ++ [add; EvConfiguration api;
                                           EvStoreConfiguration en cfg]
                   /\ (fst r = Return tt
                       \/ exists e, fst r = Panicked (PanicError e)))).
Proof.
  intros r. subst r.
  destruct (exposeApi_probe cmd engine s)
    as (pre & Hr & [Ht|(api & domain & address & s2 & Ht & Hreg)]);
    exists pre; (split; [exact Hr|]); [now left|].
  right. exists api, domain, address. cbv zeta. rewrite Hreg, register_cases.
  cbv zeta.
  destruct (client_Add api ["http"] (apiServer domain address) (world s2))
    as [[e|] w1].
  - left. cbn [fst snd after trace]. rewrite Ht, <- app_assoc. eauto.
  - destruct (client_Configuration api w1) as [cfg w2].
    destruct engine as [en|].
    + right. right. exists en, cfg. split; [reflexivity|].
      destruct (engine_StoreConfiguration en cfg w2) as [[e|] w3];
        cbn [fst snd after trace]; rewrite Ht, <- !app_assoc; cbn [app]; eauto.
    + right. left. split; [reflexivity|]. split; [reflexivity|].
      exists [EvConfiguration api]. split; [|reflexivity].
      cbn [fst snd after trace]. rewrite Ht, <- !app_assoc. reflexivity.
Qed.

(** The calls of [exposeApi] prepare the start. *)
Lemma exposeApi_preparation (cmd : Command) (engine : option Engine) (s : State) :
  exists evs,
    trace (snd (exposeApi cmd engine s)) = trace s ++ evs
    /\ forallb preparation evs = true.
Proof.
  destruct (exposeApi_probe cmd engine s)
    as (pre & Hr & [Ht|(api & domain & address & s2 & Ht & Hreg)]).
  - exists pre. split; [exact Ht|now apply reading_preparation].
  - rewrite Hreg, register_cases. cbv zeta.
    pose proof (reading_preparation pre Hr) as Hp.
    destruct (client_Add api ["http"] (apiServer domain address) (world s2))
      as [[e|] w1].
    + eexists (pre ++ [_]). cbn [snd after trace].
      rewrite Ht, <- app_assoc, forallb_app, Hp. split; reflexivity.
    + destruct (client_Configuration api w1) as [cfg w2].
      destruct engine as [en|].
      * destruct (engine_StoreConfiguration en cfg w2) as [err w3].
        eexists (pre ++ [_; _; _]). cbn [snd after trace].
        rewrite Ht, <- !app_assoc, forallb_app, Hp. split; reflexivity.
      * eexists (pre ++ [_; _]). cbn [snd after trace].
        rewrite Ht, <- !app_assoc, forallb_app, Hp. split; reflexivity.
Qed.

(** ** ServerCmd.RunE *)

(** [defer Catch] with the handler of [RunE], which prints. *)
Lemma Catch_println {A : Type} (body : M A) (zero : A) (s : State) :
  Catch body (fun err => call (EvPrintln err) (fun w => (tt, w))) zero s =
    match body s with
    | (Return a, s') => (Return a, s')
    | (Panicked p, s') => (Return zero, after (EvPrintln p) (world s') s')
    end.
Proof.
  unfold Catch, call, after. destruct (body s) as [[a|p] s']; reflexivity.
Qed.

(** [RunE], step by step. *)
Lemma RunE_cases (cmd : Command) (args : list string) (s : State) :
  RunE cmd args s =
    match getString cmd "api" s with
    | (Panicked p, _) => printed p s
    | (Return address, _) =>
    match getString cmd "security" s with
    | (Panicked p, _) => printed p s
    | (Return auth, _) =>
    match getString cmd "cluster" s with
    | (Panicked p, _) => printed p s
    | (Return cluster, _) =>
    match clusterConfiguration cluster s with
    | (Panicked p, s1) => printed p s1
    | (Return engine, s1) =>
    match exposeApi cmd engine s1 with
    | (Panicked p, s2) => printed p s2
    | (Return _, s2) =>
        let '((manager, err), w3) := lego_NewManager engine (world s2) in
        let s3 := after (EvNewManager engine) w3 s2 in
        match err with
        | Some e => printed (PanicError e) s3
        | None => started address auth engine manager s3
        end
    end end end end end.
Proof.
  unfold RunE. rewrite Catch_println. unfold printed.
  destruct (getString_outcome cmd "api" s) as [[address|p] Ha].
  2:{ unfold bind at 1. now rewrite Ha. }
  destruct (getString_outcome cmd "security" s) as [[auth|p] Hs].
  2:{ unfold bind at 1 2. now rewrite Ha, Hs. }
  destruct (getString_outcome cmd "cluster" s) as [[cluster|p] Hc].
  2:{ unfold bind at 1 2 3. now rewrite Ha, Hs, Hc. }
  unfold bind at 1 2 3. rewrite Ha, Hs, Hc. unfold bind at 1.
  destruct (clusterConfiguration cluster s) as [[engine|p] s1]; [|reflexivity].
  unfold bind at 1.
  destruct (exposeApi cmd engine s1) as [[[]|p] s2]; [|reflexivity].
  unfold bind at 1, call at 1.
  destruct (lego_NewManager engine (world s2)) as [[manager [e|]] w3];
    [reflexivity|].
  unfold started, after. unfold_M. cbn [world trace].
  destruct (server_Routers newSupervister engine manager auth w3)
    as [routers w4].
  unfold_M. cbn [world trace fst snd].
  destruct (server_NewHttp address routers w4) as [http w5].
  unfold_M. cbn [world trace fst snd].
  destruct (daemon_Start _ w5) as [err w6]. cbn [fst snd].
  now rewrite <- !app_assoc.
Qed.

(** X10. [RunE] never panics, and every run ends in one of two ways.
    Either the daemon is started, as the very last call, and [RunE]
    returns what [Start] returns; or a panic of the start-up was
    recovered, it is printed as the last action, the daemon is not
    started and [RunE] returns a nil error.  Everything before is
    preparation: no start and no print. *)
Theorem RunE_starts_last_or_prints (cmd : Command) (args : list string) (s : State) :
  exists s0 evs,
    trace s0 = trace s ++ evs
    /\ forallb preparation evs = true
    /\ ((exists d,
           RunE cmd args s
           = (Return (fst (daemon_Start d (world s0))),
              after (EvStart d) (snd (daemon_Start d (world s0))) s0))
        \/ (exists p,
              RunE cmd args s = (Return None, after (EvPrintln p) (world s0) s0))).
Proof.
  rewrite RunE_cases. unfold printed.
  assert (Here : trace s = trace s ++ [] /\ forallb preparation [] = true)
    by (split; [now rewrite app_nil_r|reflexivity]).
  destruct (getString cmd "api" s) as [[address|p] _s];
    [|exists s, []; split; [apply Here|split; [apply Here|right; eauto]]].
  destruct (getString cmd "security" s) as [[auth|p] _s1];
    [|exists s, []; split; [apply Here|split; [apply Here|right; eauto]]].
  destruct (getString cmd "cluster" s) as [[cluster|p] _s2];
    [|exists s, []; split; [apply Here|split; [apply Here|right; eauto]]].
  destruct (clusterConfiguration_preparation cluster s) as (ev1 & T1 & P1).
  destruct (clusterConfiguration cluster s) as [[engine|p] s1]; cbn [snd] in T1;
    [|exists s1, ev1; split; [exact T1|split; [exact P1|right; eauto]]].
  destruct (exposeApi_preparation cmd engine s1) as (ev2 & T2 & P2).
  assert (T12 : trace (snd (exposeApi cmd engine s1)) = trace s ++ ev1 ++ ev2)
    by (now rewrite T2, T1, app_assoc).
  assert (P12 : forallb preparation (ev1 ++ ev2) = true)
    by (now rewrite forallb_app, P1, P2).
  destruct (exposeApi cmd engine s1) as [[[]|p] s2]; cbn [snd] in T12;
    [|exists s2, (ev1 ++ ev2); split; [exact T12|split; [exact P12|right; eauto]]].
  destruct (lego_NewManager engine (world s2)) as [[manager [e|]] w3].
  - exists (after (EvNewManager engine) w3 s2), ((ev1 ++ ev2) ++ [EvNewManager engine]).
    cbn [after trace]. split; [now rewrite T12, <- !app_assoc|].
    split; [now rewrite forallb_app, P12|]. right. eauto.
  - unfold started. cbn [after world trace].
    set (rw := server_Routers newSupervister engine manager auth w3).
    set (hw := server_NewHttp address (fst rw) (snd rw)).
    set (d := Daemon_Add _ _).
    exists (mkState (snd hw)
              (trace s2 ++ [EvNewManager engine; EvRouters auth; EvNewHttp address])),
      ((ev1 ++ ev2) ++ [EvNewManager engine; EvRouters auth; EvNewHttp address]).
    cbn [world trace]. split; [now rewrite T12, <- !app_assoc|].
    split; [now rewrite forallb_app, P12|]. left. exists d.
    unfold after. cbn [world trace]. now rewrite <- !app_assoc.
Qed.


(** X12. The first start with a domain to expose.  When the engine is
    selected, the block of the domain is not found, and the Add, the
    store and the certificate manager succeed, and the api setting
    reads the same before and after the engine was selected: the block
    that [RunE] registers under [http] proxies to the address that the
    listener is then built on, on the loopback interface for a bare
    port, and the calls after the probe are the Add, the read of the
    configuration, the StoreConfiguration on the selected engine, the
    manager, the routers, the listener and the start, in this order. *)
Theorem RunE_exposes_listener_address
  (cmd : Command) (args : list string) (s s1 s2 : State)
  (address auth cluster domain : string) (e : Engine) (api : Client)
  (queries : list string) (cfg : Configuration) (manager : Manager)
  (w1 w3 w4 w5 w6 : World) :
  getString cmd "api" s = (Return address, s) ->
  getString cmd "security" s = (Return auth, s) ->
  getString cmd "cluster" s = (Return cluster, s) ->
  clusterConfiguration cluster s = (Return (Some e), s1) ->
  getString cmd "api" s1 = (Return address, s1) ->
  getString cmd "expose" s1 = (Return domain, s1) ->
  domain <> "" ->
  client_NewClient (Some e) (world s1) = ((api, None), w1) ->
  selectDirective api domain (after (EvNewClient (Some e)) w1 s1)
    = (Return (queries, None), s2) ->
  client_Add api ["http"] (apiServer domain address) (world s2) = (None, w3) ->
  client_Configuration api w3 = (cfg, w4) ->
  engine_StoreConfiguration e cfg w4 = (None, w5) ->
  lego_NewManager (Some e) w5 = ((manager, None), w6) ->
  let rw := server_Routers newSupervister (Some e) manager auth w6 in
  let hw := server_NewHttp address (fst rw) (snd rw) in
  let d := Daemon_Add (registerEngine NewDaemon (Some e))
             [HttpService (fst hw); SupervisterService newSupervister;
              ManagerService manager] in
  let ew := daemon_Start d (snd hw) in
  RunE cmd args s
  = (Return (fst ew),
     mkState (snd ew)
       (trace s2 ++ [EvAdd api ["http"] (Some (built_skeleton domain address));
                     EvConfiguration api;
                     EvStoreConfiguration e cfg;
                     EvNewManager (Some e);
                     EvRouters auth;
                     EvNewHttp address;
                     EvStart d])).
Proof.
  intros Ha Hs Hc Hcl Ha1 He1 Hd Hn Hsel Hadd Hcfg Hst Hman rw hw d ew.
  rewrite RunE_cases, Ha, Hs, Hc, Hcl.
  rewrite (exposeApi_cases cmd (Some e) s1 address domain Ha1 He1).
  destruct (String.eqb_spec domain "") as [|_]; [contradiction|].
  rewrite Hn. cbv zeta. rewrite Hsel, register_cases. cbv zeta.
  rewrite Hadd, Hcfg, Hst. cbn [after world trace]. rewrite Hman.
  unfold started, after. cbn [world trace]. fold rw hw. fold d. fold ew.
  unfold apiServer. rewrite built_apiServer_build.
  now rewrite <- !app_assoc.
Qed.

End Further.

(** * The command on the simulated deployment *)

Module Scenario.

Import Sim.

(** ** getString *)

(** The environment wins over a flag given on the command line: the
    flag holds one consul address, the variable [AGINX_CLUSTER]
    another. *)
Lemma getString_environment_wins :
  getString (C := sim) (cmd_cluster "consul://127.0.0.1:8500/aginx") "cluster"
            (start [("AGINX_CLUSTER", "consul://10.0.0.1:8500/other")] empty_http)
  = (Return "consul://10.0.0.1:8500/other",
     start [("AGINX_CLUSTER", "consul://10.0.0.1:8500/other")] empty_http).
Proof.
  apply (proj1 (@getString_env_overrides_flag sim
                  (cmd_cluster "consul://127.0.0.1:8500/aginx") "cluster"
                  (start [("AGINX_CLUSTER", "consul://10.0.0.1:8500/other")]
                         empty_http))).
  vm_compute. discriminate.
Defined.

(** ** clusterConfiguration *)

(** The scheme [zk] of the help text of the [cluster] flag is answered
    with a nil engine. *)
Lemma unrecognized_scheme_nil_zk :
  clusterConfiguration (C := sim) "zk://127.0.0.1:2182/aginx" fresh
  = (Return None, fresh).
Proof.
  eapply clusterConfiguration_unrecognized_scheme_nil.
  - discriminate.
  - reflexivity.
  - discriminate.
Defined.

(** With that connection string the command goes on with the nil
    engine and starts the daemon: the failure is not fatal at start-up. *)
Lemma unrecognized_scheme_starts_daemon :
  RunE (C := sim) (cmd_cluster "zk://127.0.0.1:2182/aginx") [] fresh
  = (Return None,
     mkState (world fresh)
       [EvNewManager None; EvRouters ""; EvNewHttp ":8011";
        EvStart (mkDaemon [HttpService ":8011";
                           SupervisterService newSupervister;
                           ManagerService tt])]).
Proof.
  vm_compute. reflexivity.
Qed.

(** C4, as stated, fails: [/aginx] has an empty scheme and is not
    resolved to the local file backend. *)
Lemma empty_scheme_not_file_backend :
  ~ (forall (C : Collaborators) (cluster : string) (s : State),
       empty_scheme cluster -> clusterConfiguration cluster s = file_backend s).
Proof.
  intros H.
  assert (E : empty_scheme "/aginx") by (eexists; split; reflexivity).
  specialize (H sim "/aginx" fresh E).
  vm_compute in H. discriminate.
Qed.

(** What the code does there: it returns a nil engine, where the file
    backend is [FileEngine]. *)
Lemma empty_scheme_nil_engine :
  clusterConfiguration (C := sim) "/aginx" fresh = (Return None, fresh)
  /\ file_backend (C := sim) fresh
     = (Return (Some FileEngine), mkState (world fresh) [EvSystem]).
Proof.
  split; reflexivity.
Qed.

(** The consul example of the help text: host, folder and token are
    the parsed components. *)
Lemma consul_components_example :
  clusterConfiguration (C := sim)
    "consul://127.0.0.1:8500/aginx?token=authtoken" fresh
  = (Return (Some (ConsulEngine "127.0.0.1:8500" "aginx" "authtoken")),
     mkState (world fresh) [EvConsulNew "127.0.0.1:8500" "aginx" "authtoken"]).
Proof.
  edestruct (@clusterConfiguration_consul_components sim
               "consul://127.0.0.1:8500/aginx?token=authtoken")
    as (folder & Hf & Hc).
  - reflexivity.
  - reflexivity.
  - discriminate.
  - rewrite Hc. vm_compute in Hf. inversion Hf; subst folder. reflexivity.
Defined.

(** A consul connection string without a path: the slice is out of
    bounds. *)
Lemma consul_without_path_panics :
  clusterConfiguration (C := sim) "consul://127.0.0.1:8500" fresh
  = (Panicked slice_out_of_range, fresh).
Proof.
  edestruct (@clusterConfiguration_consul_slice_bounds sim
               "consul://127.0.0.1:8500") as [H _].
  - reflexivity.
  - reflexivity.
  - apply H. reflexivity.
Defined.

(** ** selectDirective *)

(** The block is directly under [http]: the first Select answers
    NotFound, the second finds it. *)
Lemma selectDirective_fallback_example :
  let s := opened (exposed_http "api.example.com") in
  selectDirective (C := sim) 0 "api.example.com" s
  = (Return (direct_query "api.example.com", Some [0; 0]),
     after (EvSelect 0 (direct_query "api.example.com")) (world s)
           (after (EvSelect 0 (include_query "api.example.com")) (world s) s)).
Proof.
  intros s.
  edestruct (@selectDirective_fallback sim 0 "api.example.com" s) as [_ H].
  - reflexivity.
  - discriminate.
  - edestruct H as [H2 _].
    + discriminate.
    + reflexivity.
    + discriminate.
    + destruct (H2 eq_refl) as (d & rest & Hd & Hsel).
      inversion Hd; subst d rest. exact Hsel.
Defined.

(** The simulated Select keeps the guarantee of the specification. *)
Lemma sim_Select_guarantee : @Select_guarantee sim.
Proof.
  intros api queries w ds w'. cbn. unfold simSelect.
  destruct (nth_error (docs w) api) as [root|]; [|discriminate].
  destruct (evaluate root queries); [discriminate|].
  intros H; inversion H. discriminate.
Defined.

(** Two blocks match: the first in document order is returned. *)
Lemma selectDirective_first_match_example :
  let s := opened (twice_exposed_http "api.example.com") in
  fst (client_Select (Collaborators := sim) 0
         (direct_query "api.example.com") (world s))
  = ([Some [0; 0]; Some [0; 1]], None)
  /\ selectDirective (C := sim) 0 "api.example.com" s
     = (Return (direct_query "api.example.com", Some [0; 0]),
        after (EvSelect 0 (direct_query "api.example.com")) (world s)
              (after (EvSelect 0 (include_query "api.example.com")) (world s) s)).
Proof.
  intros s. split; [reflexivity|].
  destruct (@selectDirective_first_match sim 0 "api.example.com" s
              sim_Select_guarantee) as (_ & _ & H).
  eapply H; reflexivity.
Defined.

(** ** exposeApi *)



(** *** Two runs, for every domain *)

Lemma evaluate_empty_http (q1 : list string) :
  evaluate empty_http ("http" :: "include" :: q1) = []
  /\ forall q, evaluate empty_http ["http"; q] = [].
Proof.
  split; [|reflexivity].
  unfold evaluate. cbn [fold_left].
  assert (E : flat_map (step_children empty_http "include")
                (flat_map (step_children empty_http "http") [[]]) = [])
    by reflexivity.
  rewrite E. clear E. induction q1 as [|q r IH]; [reflexivity|exact IH].
Qed.

Lemma evaluate_registered_include (domain address q : string) :
  evaluate (registered domain address) ["http"; "include"; "*"; q] = [].
Proof.
  reflexivity.
Qed.

Lemma evaluate_registered_direct (domain address : string) :
  evaluate (registered domain address) (direct_query domain) = [[0; 0]].
Proof.
  unfold evaluate, direct_query. cbn [fold_left].
  assert (E : flat_map (step_children (registered domain address) "http") [[]]
              = [[0]]) by reflexivity.
  rewrite E. clear E. cbn [flat_map]. rewrite app_nil_r.
  unfold step_children. cbn [subtree registered nth_error Body].
  cbn [List.length seq filter nth_error].
  assert (M : step_matches
                ("server.[server_name('" ++ domain ++ "') & listen('80')]")%string
                (built_skeleton domain address) = true).
  { unfold step_matches.
    assert (H1 : has_child (built_skeleton domain address) "listen" ["80"] = true)
      by reflexivity.
    assert (H2 : child_args (built_skeleton domain address) "server_name"
                 = [[domain]]) by reflexivity.
    assert (H3 : Name (built_skeleton domain address) = "server") by reflexivity.
    rewrite H1, H2, H3. cbn [existsb andb].
    change ("server" ++ ".[server_name('" ++ domain ++ "') & listen('80')]")%string
      with ("server.[server_name('" ++ domain ++ "') & listen('80')]")%string.
    rewrite String.eqb_refl. now rewrite !orb_true_r. }
  rewrite M. reflexivity.
Qed.

Lemma simSelect_absent (api : nat) (queries : list string) (w : SimWorld)
  (root : Directive) :
  nth_error (docs w) api = Some root -> evaluate root queries = [] ->
  simSelect api queries w = (([], Some NotFound), w).
Proof.
  intros Hr He. unfold simSelect. now rewrite Hr, He.
Qed.

Lemma simSelect_found (api : nat) (queries : list string) (w : SimWorld)
  (root : Directive) (p : Path) (ps : list Path) :
  nth_error (docs w) api = Some root -> evaluate root queries = p :: ps ->
  simSelect api queries w = ((Some p :: map Some ps, None), w).
Proof.
  intros Hr He. unfold simSelect. now rewrite Hr, He.
Qed.

Lemma selectDirective_sim_absent (api : nat) (domain : string) (s : @State sim)
  (root : Directive) :
  nth_error (docs (world s)) api = Some root ->
  evaluate root (include_query domain) = [] ->
  evaluate root (direct_query domain) = [] ->
  selectDirective api domain s
  = (Return (direct_query domain, None),
     after (EvSelect api (direct_query domain)) (world s)
           (after (EvSelect api (include_query domain)) (world s) s)).
Proof.
  intros Hr Hi Hd. rewrite selectDirective_cases.
  cbn [client_Select sim].
  rewrite (simSelect_absent _ _ _ _ Hr Hi). cbv zeta.
  rewrite (simSelect_absent _ _ _ _ Hr Hd). reflexivity.
Qed.

Lemma selectDirective_sim_direct (api : nat) (domain : string) (s : @State sim)
  (root : Directive) (p : Path) (ps : list Path) :
  nth_error (docs (world s)) api = Some root ->
  evaluate root (include_query domain) = [] ->
  evaluate root (direct_query domain) = p :: ps ->
  selectDirective api domain s
  = (Return (direct_query domain, Some p),
     after (EvSelect api (direct_query domain)) (world s)
           (after (EvSelect api (include_query domain)) (world s) s)).
Proof.
  intros Hr Hi Hd. rewrite selectDirective_cases.
  cbn [client_Select sim].
  rewrite (simSelect_absent _ _ _ _ Hr Hi). cbv zeta.
  rewrite (simSelect_found _ _ _ _ _ _ Hr Hd). reflexivity.
Qed.

Lemma getString_cmd_for (domain address : string) (s : @State sim) :
  environ (world s) = [] ->
  getString (cmd_for domain address) "api" s = (Return address, s)
  /\ getString (cmd_for domain address) "expose" s = (Return domain, s).
Proof.
  intros He.
  split; (rewrite getString_from_flag; [reflexivity|]);
    cbn [os_Getenv sim]; rewrite He; reflexivity.
Qed.

(** On the simulated deployment, for every domain and address: the
    first run of [exposeApi] on the empty [http] block registers the
    block and stores the tree; the second run opens a client, finds
    the block with its second Select and changes nothing, the stored
    tree is the same. *)
Lemma exposeApi_twice (domain address : string) :
  domain <> "" ->
  let s1 := registered_state domain address in
  exposeApi (C := sim) (cmd_for domain address) (Some FileEngine) fresh
    = (Return tt, s1)
  /\ exposeApi (C := sim) (cmd_for domain address) (Some FileEngine) s1
     = (Return tt,
        mkState (mkWorld [] (registered domain address)
                         [registered domain address; registered domain address])
                (trace s1 ++ [EvNewClient (Some FileEngine);
                              EvSelect 1 (include_query domain);
                              EvSelect 1 (direct_query domain)])).
Proof.
  intros Hd s1.
  assert (Hb : apiServer domain address = Some (built_skeleton domain address))
    by apply built_apiServer_build.
  assert (Hde : (domain =? "")%string = false) by now apply String.eqb_neq.
  split.
  - destruct (getString_cmd_for domain address fresh eq_refl) as [Ha He].
    rewrite (exposeApi_cases _ _ _ address domain Ha He), Hde.
    cbn [client_NewClient sim simNewClient]. cbv zeta.
    rewrite (selectDirective_sim_absent 0 domain _ empty_http);
      [| reflexivity | exact (proj1 (evaluate_empty_http _))
       | exact (proj2 (evaluate_empty_http []) _)].
    unfold register. rewrite Hb. reflexivity.
  - destruct (getString_cmd_for domain address s1 eq_refl) as [Ha He].
    rewrite (exposeApi_cases _ _ _ address domain Ha He), Hde.
    cbn [client_NewClient sim simNewClient]. cbv zeta.
    rewrite (selectDirective_sim_direct 1 domain _ (registered domain address)
               [0; 0] []);
      [| reflexivity | apply evaluate_registered_include
       | apply evaluate_registered_direct].
    reflexivity.
Qed.

(** ** ServerCmd.RunE *)

(** A consul engine is started as a Service of the daemon. *)
Lemma daemon_holds_consul_engine :
  exists d http s',
    RunE (C := sim)
         (cmd_cluster "consul://127.0.0.1:8500/aginx?token=authtoken") [] fresh
    = (Return None, after (EvStart d) (world s') s')
    /\ services d
       = [EngineService (ConsulEngine "127.0.0.1:8500" "aginx" "authtoken");
          HttpService http; SupervisterService newSupervister;
          ManagerService tt].
Proof.
  pose (s1 := mkState (world fresh)
                [EvConsulNew "127.0.0.1:8500" "aginx" "authtoken"] : @State sim).
  destruct (@daemon_registers_engine_iff_service sim
              (cmd_cluster "consul://127.0.0.1:8500/aginx?token=authtoken")
              [] fresh s1 s1 ":8011" ""
              "consul://127.0.0.1:8500/aginx?token=authtoken"
              (Some (ConsulEngine "127.0.0.1:8500" "aginx" "authtoken"))
              tt (world fresh)
              eq_refl eq_refl eq_refl eq_refl eq_refl eq_refl)
    as [_ (d & http & s' & Hrun & Hsv & _)].
  exists d, http, s'. split; [exact Hrun | exact Hsv].
Defined.

(** The local file engine is not. *)
Lemma daemon_without_file_engine :
  RunE (C := sim) ServerCmd [] fresh
  = (Return None,
     mkState (world fresh)
       [EvSystem; EvNewManager (Some FileEngine); EvRouters "";
        EvNewHttp ":8011";
        EvStart (mkDaemon [HttpService ":8011";
                           SupervisterService newSupervister;
                           ManagerService tt])]).
Proof.
  vm_compute. reflexivity.
Qed.


(** ** Runs for the further properties *)


(** A port that is not a number is refused by the parser, and fatal. *)
Lemma invalid_port_panics :
  exists e,
    clusterConfiguration (C := sim) "consul://127.0.0.1:85x0/aginx" fresh
    = (Panicked (PanicError (url_Error e)), fresh)
    /\ url.Cause e = url.InvalidPort ":85x0".
Proof.
  eexists. split.
  - apply (@clusterConfiguration_unparsable_panics sim
             "consul://127.0.0.1:85x0/aginx" None _ fresh).
    vm_compute. reflexivity.
  - reflexivity.
Defined.

(** On a client whose Select answers without error and without match,
    the probe of a domain that is not there panics. *)
Lemma lenient_empty_answer_panics :
  selectDirective (C := lenient) 0 "api.example.com"
    (mkState (C := lenient) (mkWorld [] empty_http [empty_http]) [])
  = (Panicked index_out_of_range,
     mkState (C := lenient) (mkWorld [] empty_http [empty_http])
       [@EvSelect lenient 0 (include_query "api.example.com")]).
Proof.
  apply (@selectDirective_empty_answer_out_of_range lenient 0 "api.example.com").
  left. exists (mkWorld [] empty_http [empty_http]). split; reflexivity.
Defined.

(** Without an engine no client is opened, and [exposeApi] panics. *)
Lemma exposeApi_without_engine_panics :
  exposeApi (C := sim) (cmd_for "api.example.com" ":8011") None fresh
  = (Panicked (PanicError (errors_New "no storage engine")),
     mkState (C := sim) (world fresh) [@EvNewClient sim None]).
Proof.
  apply (@exposeApi_NewClient_error_is_fatal sim
           (cmd_for "api.example.com" ":8011") None fresh
           ":8011" "api.example.com" 0 (errors_New "no storage engine")
           (world fresh)).
  - reflexivity.
  - reflexivity.
  - discriminate.
  - reflexivity.
Defined.

(** On a stored configuration without an [http] block the Add finds
    no target: [exposeApi] panics and the stored tree is as before. *)
Lemma exposeApi_without_http_panics :
  exposeApi (C := sim) (cmd_for "api.example.com" ":8011") (Some FileEngine)
            (start [] no_http)
  = (Panicked (PanicError NotFound),
     mkState (C := sim) (mkWorld [] no_http [no_http])
       [EvNewClient (Some FileEngine);
        EvSelect 0 (include_query "api.example.com");
        EvSelect 0 (direct_query "api.example.com");
        EvAdd 0 ["http"] (apiServer "api.example.com" ":8011")]).
Proof.
  pose (s2 := mkState (mkWorld [] no_http [no_http])
                [EvNewClient (Some FileEngine);
                 EvSelect 0 (include_query "api.example.com");
                 EvSelect 0 (direct_query "api.example.com")] : @State sim).
  apply (@exposeApi_Add_error_is_fatal sim
           (cmd_for "api.example.com" ":8011") (Some FileEngine)
           (start [] no_http) s2
           ":8011" "api.example.com" 0
           (mkWorld [] no_http [no_http]) (mkWorld [] no_http [no_http])
           (direct_query "api.example.com") NotFound).
  - reflexivity.
  - reflexivity.
  - discriminate.
  - reflexivity.
  - reflexivity.
  - reflexivity.
Defined.


(** The first start with the domain [api.example.com] and the default
    address: the block proxies to [127.0.0.1:8011], the listener is
    built on [:8011]. *)
Lemma first_start_exposes_api :
  RunE (C := sim) (cmd_for "api.example.com" ":8011") [] fresh
  = (Return None,
     mkState (C := sim)
       (mkWorld [] (registered "api.example.com" ":8011")
                [registered "api.example.com" ":8011"])
       [EvSystem;
        EvNewClient (Some FileEngine);
        EvSelect 0 (include_query "api.example.com");
        EvSelect 0 (direct_query "api.example.com");
        EvAdd 0 ["http"] (Some (built_skeleton "api.example.com" ":8011"));
        EvConfiguration 0;
        EvStoreConfiguration FileEngine (registered "api.example.com" ":8011");
        EvNewManager (Some FileEngine);
        EvRouters "";
        EvNewHttp ":8011";
        EvStart (mkDaemon [HttpService ":8011";
                           SupervisterService newSupervister;
                           ManagerService tt])]).
Proof.
  pose (s1 := mkState (world fresh) [EvSystem] : @State sim).
  pose (w1 := mkWorld [] empty_http [empty_http]).
  pose (s2 := mkState w1
                [EvSystem;
                 EvNewClient (Some FileEngine);
                 EvSelect 0 (include_query "api.example.com");
                 EvSelect 0 (direct_query "api.example.com")] : @State sim).
  pose (w3 := mkWorld [] empty_http [registered "api.example.com" ":8011"]).
  pose (w5 := mkWorld [] (registered "api.example.com" ":8011")
                      [registered "api.example.com" ":8011"]).
  apply (@RunE_exposes_listener_address sim
           (cmd_for "api.example.com" ":8011") [] fresh s1 s2
           ":8011" "" "" "api.example.com" FileEngine 0
           (direct_query "api.example.com")
           (registered "api.example.com" ":8011") tt
           w1 w3 w3 w5 w5).
  - reflexivity.
  - reflexivity.
  - reflexivity.
  - reflexivity.
  - reflexivity.
  - reflexivity.
  - discriminate.
  - reflexivity.
  - reflexivity.
  - reflexivity.
  - reflexivity.
  - reflexivity.
  - reflexivity.
Defined.

End Scenario.
